(** * Cloud-based virtual laboratory: runner, grader and session store

    A shallow embedding of [app.py]: the code runner
    ([execute_python_code]), the auto-grading expression of [start_lab],
    the session table ([save_session], the score update of
    [grading_dashboard]) and the two session views ([my_sessions],
    [grading_dashboard]).

    Python text is a sequence of Unicode code points; the three CSV files
    are typed tables (lists of rows, in file order); the operating system
    (temporary files, the child interpreter, the clock) and the Streamlit
    screen are fields of one explicit [world] threaded through a state and
    exception monad. *)

From stdpp Require Import base list strings pretty gmap sorting.
From Stdlib Require Import ZArith QArith.

Set Default Proof Using "Type".
Local Open Scope Z_scope.

(** ** Python strings *)

(** A [str] is a list of code points. *)
Abbreviation str := (list N).

(** A literal made of ASCII characters only. *)
Definition lit (s : string) : str :=
  Ascii.N_of_ascii <$> String.list_ascii_of_string s.

(** [str.isspace] on one code point (CPython's [_PyUnicode_IsWhitespace]). *)
Definition isspace (c : N) : bool :=
  ((9 <=? c) && (c <=? 13) || (28 <=? c) && (c <=? 32)
   || (c =? 0x85) || (c =? 0xA0) || (c =? 0x1680)
   || (0x2000 <=? c) && (c <=? 0x200A)
   || (c =? 0x2028) || (c =? 0x2029) || (c =? 0x202F)
   || (c =? 0x205F) || (c =? 0x3000))%N.

Fixpoint lstrip (s : str) : str :=
  match s with
  | c :: r => if isspace c then lstrip r else s
  | [] => []
  end.

Definition rstrip (s : str) : str := reverse (lstrip (reverse s)).

(** [s.strip()] with no argument. *)
Definition strip (s : str) : str := rstrip (lstrip s).

(** Truth value of a string in a condition: non-empty. *)
Definition truthy (s : str) : bool :=
  match s with [] => false | _ :: _ => true end.

(** Lexicographic comparison by code point, Python's [<=] on [str]. *)
Fixpoint str_leb (a b : str) : bool :=
  match a, b with
  | [], _ => true
  | _ :: _, [] => false
  | x :: a', y :: b' =>
      match N.compare x y with
      | Lt => true
      | Gt => false
      | Eq => str_leb a' b'
      end
  end.

Definition str_le (a b : str) : Prop := str_leb a b = true.

(** ** [textwrap.dedent]

    The library function, following CPython's implementation: lines made
    of spaces and tabs only are emptied, the margin is the longest string
    of spaces and tabs that starts every remaining non-empty line, and the
    margin is removed from the front of every line that starts with it. *)

Definition is_blank (c : N) : bool := ((c =? 32) || (c =? 9))%N.

Definition NL : N := 10%N.

(** [text.split("\n")] *)
Fixpoint split_lines (s : str) : list str :=
  match s with
  | [] => [[]]
  | c :: r =>
      if (c =? NL)%N then [] :: split_lines r
      else match split_lines r with
           | l :: ls => (c :: l) :: ls
           | [] => [[c]]
           end
  end.

(** ["\n".join(lines)] *)
Fixpoint join_lines (ls : list str) : str :=
  match ls with
  | [] => []
  | [l] => l
  | l :: ls' => l ++ NL :: join_lines ls'
  end.

Fixpoint leading_blanks (l : str) : str :=
  match l with
  | c :: r => if is_blank c then c :: leading_blanks r else []
  | [] => []
  end.

Definition whitespace_only (l : str) : bool := forallb is_blank l.

Fixpoint common_prefix (a b : str) : str :=
  match a, b with
  | x :: a', y :: b' => if (x =? y)%N then x :: common_prefix a' b' else []
  | _, _ => []
  end.

(** The [margin] loop: [None] until the first indented or unindented
    non-empty line is seen. *)
Definition margin_step (margin : option str) (indent : str) : option str :=
  match margin with
  | None => Some indent
  | Some m => Some (common_prefix m indent)
  end.

Fixpoint startswith (p s : str) : bool :=
  match p, s with
  | [], _ => true
  | x :: p', y :: s' => (x =? y)%N && startswith p' s'
  | _ :: _, [] => false
  end.

Definition remove_margin (margin l : str) : str :=
  if startswith margin l then drop (length margin) l else l.

Definition dedent (text : str) : str :=
  let lines := (λ l, if whitespace_only l then [] else l) <$> split_lines text in
  let indents := leading_blanks <$> filter (λ l, l ≠ []) lines in
  match foldl margin_step None indents with
  | Some (c :: m) => join_lines (remove_margin (c :: m) <$> lines)
  | _ => join_lines lines
  end.

(** ** The grader

    [100 if str(output).strip() == str(lab["expected_output"]).strip()
    else 0]; both operands are strings, on which [str] is the identity. *)

Definition grade (output expected_output : str) : Z :=
  if decide (strip output = strip expected_output) then 100 else 0.


(** ** The three tables *)

(** [users.csv] *)
Record User := mkUser {
  id : Z; name : str; email : str; password_hash : str; role : str }.

(** [labs.csv] *)
Record Lab := mkLab {
  lab_id : Z; title : str; description : str; expected_output : str }.

(** [lab_sessions.csv]; an empty [score] cell is [None]. *)
Record Session := mkSession {
  session_id : Z; user_id : Z; session_lab_id : Z;
  code : str; output : str; score : option Z; timestamp : str }.

(** A row of [merged]: a session with the user and the lab its keys
    resolve to; the columns of an unmatched side are all NaN. *)
Record Merged := mkMerged {
  m_session : Session; m_user : option User; m_lab : option Lab }.

(** A row of [merged_view]: the columns [session_id], [name], [email],
    [title], [output], [score], [timestamp], in that order. *)
Record MergedView := mkMergedView {
  v_session_id : Z;
  v_name : option str; v_email : option str; v_title : option str;
  v_output : str; v_score : option Z; v_timestamp : str }.

Global Instance User_eq_dec : EqDecision User.
Proof. solve_decision. Defined.
Global Instance Lab_eq_dec : EqDecision Lab.
Proof. solve_decision. Defined.
Global Instance Session_eq_dec : EqDecision Session.
Proof. solve_decision. Defined.
Global Instance MergedView_eq_dec : EqDecision MergedView.
Proof. solve_decision. Defined.

(** ** The world *)

(** What the script puts on the page. *)
Inductive ui :=
  | Title (s : str)
  | Subheader (s : str)
  | Markdown (s : str)
  | TextArea (label value : str)
  | Info (s : str)
  | Success (s : str)
  | Warning (s : str)
  | DataFrameSessions (rows : list Session)
  | DataFrameMerged (rows : list MergedView).

(** Calls to the operating system, in the order they are made. *)
Inductive syscall :=
  | SysCreate (path : string)
  | SysWrite (path : string) (data : str)
  | SysSpawn (argv : list string)
  | SysKill
  | SysUnlink (path : string) (ok : bool).

(** What a child interpreter does with a program: the time after which it
    exits by itself ([None]: never), the text it has put on its two pipes
    when it exits or is killed, and the files it leaves behind. *)
Record process := mkProcess {
  exit_after : option Q;
  stdout : str;
  stderr : str;
  files_after : gmap string str }.

Record world := mkWorld {
  files : gmap string str;
  undeletable : gset string;
  python_on_path : bool;
  interp : str → gmap string str → process;
  mkstemp : gmap string str → string;
  syslog : list syscall;
  users_csv : list User;
  labs_csv : list Lab;
  sessions_csv : list Session;
  now : str;
  screen : list ui }.

Definition set_files (f : gmap string str) (w : world) : world :=
  mkWorld f (undeletable w) (python_on_path w) (interp w) (mkstemp w)
    (syslog w) (users_csv w) (labs_csv w) (sessions_csv w) (now w) (screen w).

Definition log_sys (c : syscall) (w : world) : world :=
  mkWorld (files w) (undeletable w) (python_on_path w) (interp w) (mkstemp w)
    (syslog w ++ [c]) (users_csv w) (labs_csv w) (sessions_csv w) (now w)
    (screen w).

Definition set_sessions (df : list Session) (w : world) : world :=
  mkWorld (files w) (undeletable w) (python_on_path w) (interp w) (mkstemp w)
    (syslog w) (users_csv w) (labs_csv w) df (now w) (screen w).

Definition show (e : ui) (w : world) : world :=
  mkWorld (files w) (undeletable w) (python_on_path w) (interp w) (mkstemp w)
    (syslog w) (users_csv w) (labs_csv w) (sessions_csv w) (now w)
    (screen w ++ [e]).

(** ** Statements: state and exceptions *)

Inductive exn :=
  | TimeoutExpired (partial_stdout partial_stderr : str)
  | FileNotFoundError
  | PermissionError
  | UnicodeEncodeError
  | IndexError
  | ValueError
  | RerunException.

(** [RerunException] derives from [BaseException] only. *)
Definition is_Exception (e : exn) : bool :=
  match e with RerunException => false | _ => true end.

Inductive result (A : Type) :=
  | Ret (a : A)
  | Raise (e : exn).
Arguments Ret {A} a.
Arguments Raise {A} e.

Definition M (A : Type) : Type := world → result A * world.

Definition ret {A} (a : A) : M A := λ w, (Ret a, w).
Definition raise {A} (e : exn) : M A := λ w, (Raise e, w).
Definition bind {A B} (m : M A) (k : A → M B) : M B :=
  λ w, match m w with
       | (Ret a, w') => k a w'
       | (Raise e, w') => (Raise e, w')
       end.

Global Instance M_ret : MRet M := @ret.
Global Instance M_bind : MBind M := λ A B k m, bind m k.

(** [try: body except <handled>: handler] *)
Definition try_except {A} (body : M A) (handled : exn → bool)
    (handler : exn → M A) : M A :=
  λ w, match body w with
       | (Raise e, w') => if handled e then handler e w' else (Raise e, w')
       | r => r
       end.

(** [try: body finally: final] *)
Definition try_finally {A} (body : M A) (final : M unit) : M A :=
  λ w, match body w with
       | (r, w') =>
           match final w' with
           | (Ret _, w'') => (r, w'')
           | (Raise e, w'') => (Raise e, w'')
           end
       end.

(** ** Operating system and library calls *)

Definition is_surrogate (c : N) : bool := ((0xD800 <=? c) && (c <=? 0xDFFF))%N.

(** [code.encode()]: UTF-8 has no encoding for a lone surrogate. The file
    holds the encoded text, kept here as the text itself. *)
Definition encode (s : str) : M str :=
  if existsb is_surrogate s then raise UnicodeEncodeError else ret s.

(** [tempfile.NamedTemporaryFile(delete=False, suffix=".py")]: a new, empty
    file under a name of the system's choice. *)
Definition NamedTemporaryFile (suffix : string) : M string :=
  λ w, let path := mkstemp w (files w) +:+ suffix in
       (Ret path, log_sys (SysCreate path) (set_files (<[path := []]> (files w)) w)).

(** [t.write(data); t.flush()] *)
Definition write (path : string) (data : str) : M unit :=
  λ w, (Ret (), log_sys (SysWrite path data) (set_files (<[path := data]> (files w)) w)).

(** [os.remove(path)] *)
Definition os_remove (path : string) : M unit :=
  λ w, match files w !! path with
       | None => (Raise FileNotFoundError, log_sys (SysUnlink path false) w)
       | Some _ =>
           if decide (path ∈ undeletable w)
           then (Raise PermissionError, log_sys (SysUnlink path false) w)
           else (Ret (), log_sys (SysUnlink path true)
                           (set_files (delete path (files w)) w))
       end.

(** The interpreter on a script it cannot open. *)
Definition no_script (fs : gmap string str) : process :=
  mkProcess (Some 0%Q) [] (lit "python: can't open file") fs.

(** [subprocess.run(["python", path], capture_output=True, text=True,
    timeout=timeout)]: the captured pair [(stdout, stderr)] when the child
    exits in time; otherwise the child is killed and [TimeoutExpired] is
    raised, carrying what was captured so far. *)
Definition subprocess_run (path : string) (timeout : Q) : M (str * str) :=
  λ w, if python_on_path w then
         let p := match files w !! path with
                  | Some prog => interp w prog (files w)
                  | None => no_script (files w)
                  end in
         let w' := log_sys (SysSpawn ["python"; path]) (set_files (files_after p) w) in
         match exit_after p with
         | Some t =>
             if Qle_bool t timeout then (Ret (stdout p, stderr p), w')
             else (Raise (TimeoutExpired (stdout p) (stderr p)), log_sys SysKill w')
         | None => (Raise (TimeoutExpired (stdout p) (stderr p)), log_sys SysKill w')
         end
       else (Raise FileNotFoundError, log_sys (SysSpawn ["python"; path]) w).

(** ** The runner *)

Definition timeout_message : str :=
  [0x23F1; 0xFE0F]%N ++ lit " Error: Code execution timed out!".

Definition default_timeout : Q := 5%Q.

Definition is_TimeoutExpired (e : exn) : bool :=
  match e with TimeoutExpired _ _ => true | _ => false end.

Definition execute_python_code (code : str) (timeout : Q) : M str :=
  let code := dedent code in
  temp_path ← (t ← NamedTemporaryFile ".py";
               data ← encode code;
               write t data;;
               ret t);
  try_finally
    (try_except
       (proc ← subprocess_run temp_path timeout;
        let out := strip proc.1 in
        let err := strip proc.2 in
        ret (if truthy out then out
             else if truthy err then err
             else lit "(No output)"))
       is_TimeoutExpired
       (λ _, ret timeout_message))
    (try_except (os_remove temp_path) is_Exception (λ _, ret ())).

(** ** Tables, clock and page *)

(** [load_csv] and [save_csv] on each of the three files. *)
Definition load_users : M (list User) := λ w, (Ret (users_csv w), w).
Definition load_labs : M (list Lab) := λ w, (Ret (labs_csv w), w).
Definition load_sessions : M (list Session) := λ w, (Ret (sessions_csv w), w).
Definition save_sessions (df : list Session) : M unit :=
  λ w, (Ret (), set_sessions df w).

(** [datetime.now().strftime("%Y-%m-%d %H:%M:%S")] *)
Definition datetime_now : M str := λ w, (Ret (now w), w).

(** [st.title], [st.info], ...: one more element on the page. *)
Definition st (e : ui) : M unit := λ w, (Ret (), show e w).

(** [df.empty] *)
Definition df_empty {A} (df : list A) : bool :=
  match df with [] => true | _ :: _ => false end.

(** [series.max()]: NaN ([None]) on an empty column. *)
Definition series_max (xs : list Z) : option Z :=
  match xs with
  | [] => None
  | x :: r => Some (foldl Z.max x r)
  end.

(** [int(x)], which raises on NaN. *)
Definition int (x : option Z) : M Z :=
  match x with Some z => mret z | None => raise ValueError end.

Global Instance str_le_dec a b : Decision (str_le a b).
Proof. unfold str_le. apply _. Defined.

(** [df.sort_values("timestamp", ascending=False)]. The order pandas gives
    to rows with equal timestamps is not relied upon. *)
Definition sort_values_desc {A} (timestamp_of : A → str) (df : list A) : list A :=
  merge_sort (λ a b, str_le (timestamp_of b) (timestamp_of a)) df.

(** [left.merge(right, left_on=.., right_on=.., how="left")]: every left
    row, in order, once per right row with the same key, or once with NaN
    for the right columns when there is none. *)
Definition merge_left {L R} (left_on : L → Z) (right_on : R → Z)
    (left : list L) (right : list R) : list (L * option R) :=
  left ≫= λ l,
    match filter (λ r, left_on l = right_on r) right with
    | [] => [(l, None)]
    | ms => (λ r, (l, Some r)) <$> ms
    end.

Definition merge_all (sessions_df : list Session) (users_df : list User)
    (labs_df : list Lab) : list Merged :=
  let merged := merge_left user_id id sessions_df users_df in
  let merged := merge_left (λ su, session_lab_id su.1) lab_id merged labs_df in
  (λ sul, mkMerged sul.1.1 sul.1.2 sul.2) <$> merged.

(** [merged[["session_id", "name", "email", "title", "output", "score",
    "timestamp"]]] *)
Definition view_of (m : Merged) : MergedView :=
  mkMergedView (session_id (m_session m))
    (name <$> m_user m) (email <$> m_user m) (title <$> m_lab m)
    (output (m_session m)) (score (m_session m)) (timestamp (m_session m)).

(** ** The session store *)

(** The [score] argument of [save_session]: an integer, or [""]. *)
Inductive score_arg :=
  | ScoreInt (z : Z)
  | ScoreBlank.

Definition save_session (user_id lab_id : Z) (code output : str)
    (score : score_arg) : M unit :=
  df ← load_sessions;
  new_id ← (if negb (df_empty df)
            then (m ← int (series_max (session_id <$> df)); mret (m + 1))
            else mret 1);
  ts ← datetime_now;
  let df := df ++ [mkSession new_id user_id lab_id code output
                     (match score with ScoreInt z => Some z | ScoreBlank => None end)
                     ts] in
  save_sessions df.

(** [sessions_df.loc[sessions_df["session_id"] == sid, "score"] = new_score] *)
Definition set_score (sid new_score : Z) (df : list Session) : list Session :=
  (λ s, if decide (session_id s = sid)
        then mkSession (session_id s) (user_id s) (session_lab_id s) (code s)
               (output s) (Some new_score) (timestamp s)
        else s) <$> df.

(** ** Pages *)

(** Widget values of the "Start Lab" page. *)
Record start_lab_inputs := mkStartLab {
  chosen_lab : option str;
  code_area : str;
  run_clicked : bool;
  save_clicked : bool }.

Definition start_lab (user : User) (inp : start_lab_inputs) : M unit :=
  st (Title (0x1F4BB%N :: lit " Start a Lab Session"));;
  labs_df ← load_labs;
  lab ← match filter (λ l, Some (title l) = chosen_lab inp) labs_df with
        | lab :: _ => mret lab
        | [] => raise IndexError
        end;
  st (Subheader (0x1F9EA%N :: lit " " ++ title lab));;
  st (Markdown (description lab));;
  let code := code_area inp in
  (if run_clicked inp then
     output ← execute_python_code code default_timeout;
     st (TextArea (lit "Output") output);;
     let score := grade output (expected_output lab) in
     st (Info (lit "Auto-graded Score: " ++ lit (pretty score) ++ lit "/100"));;
     save_session (id user) (lab_id lab) code output (ScoreInt score);;
     st (Success (lit "Session saved successfully!"))
   else mret ());;
  if save_clicked inp then
    save_session (id user) (lab_id lab) code [] ScoreBlank;;
    st (Success (lit "Code saved (without grading)."))
  else mret ().

Definition my_sessions (user : User) : M unit :=
  st (Title ([0x1F5C2; 0xFE0F]%N ++ lit " My Sessions"));;
  df ← load_sessions;
  let my := filter (λ s, user_id s = id user) df in
  if df_empty my then st (Info (lit "No lab sessions yet."))
  else st (DataFrameSessions (sort_values_desc timestamp my)).

(** Widget values of the grading page. *)
Record grading_inputs := mkGrading {
  sid : Z;
  new_score : Z;
  update_clicked : bool }.

Definition grading_dashboard (inp : grading_inputs) : M unit :=
  st (Title (0x1F4CA%N :: lit " Instructor Grading Dashboard"));;
  users_df ← load_users;
  sessions_df ← load_sessions;
  labs_df ← load_labs;
  let merged := merge_all sessions_df users_df labs_df in
  let merged_view := view_of <$> merged in
  if df_empty merged_view then st (Info (lit "No student submissions yet."))
  else
    st (DataFrameMerged (sort_values_desc v_timestamp merged_view));;
    st (Subheader (0x1F4DD%N :: lit " Update a Student Score"));;
    if update_clicked inp then
      if decide (sid inp ∈ v_session_id <$> merged_view) then
        let sessions_df := set_score (sid inp) (new_score inp) sessions_df in
        save_sessions sessions_df;;
        st (Success (lit "Score for session " ++ lit (pretty (sid inp))
                     ++ lit " updated to " ++ lit (pretty (new_score inp))
                     ++ lit "."));;
        raise RerunException
      else st (Warning (lit "Invalid Session ID."))
    else mret ().

(** ** Sample worlds

    Small interpreters and machines on which the statements below are
    evaluated. *)

(** An interpreter that exits after one second having printed its own
    program text. *)
Definition echo_interp : str → gmap string str → process :=
  λ prog fs, mkProcess (Some 1%Q) prog [] fs.

(** An interpreter whose every run behaves as [p] on the pipes and leaves
    the files alone. *)
Definition fixed_interp (exit : option Q) (out err : str)
    : str → gmap string str → process :=
  λ _ fs, mkProcess exit out err fs.


Definition basic_python : Lab :=
  mkLab 1 (lit "Basic Python") (lit "Print statements and variables")
    (lit "Hello World").

Definition instructor : User :=
  mkUser 1 (lit "Instructor") (lit "instructor@gmail.com") [] (lit "instructor").

Definition student : User :=
  mkUser 2 (lit "Ada") (lit "ada@example.org") [] (lit "student").

(** A machine right after the initial data creation: the default
    instructor, the default lab and no session. *)
Definition fresh_world (i : str → gmap string str → process) : world :=
  mkWorld ∅ ∅ true i (λ _, "/tmp/tmpq3x"%string) []
    [instructor] [basic_python] [] (lit "2024-05-01 10:00:00") [].

Definition set_now (t : str) (w : world) : world :=
  mkWorld (files w) (undeletable w) (python_on_path w) (interp w) (mkstemp w)
    (syslog w) (users_csv w) (labs_csv w) (sessions_csv w) t (screen w).



(** ** Notions used in the statements *)

(** [preserves P m]: statement [m] keeps [P] true of the world, whether it
    returns or raises. *)
Definition preserves {A} (P : world → Prop) (m : M A) : Prop :=
  ∀ w, P w → P (m w).2.

(** The identifier [save_session] computes for its new row. *)
Definition next_id (df : list Session) : Z :=
  match series_max (session_id <$> df) with
  | Some m => m + 1
  | None => 1
  end.

Definition score_cell (score : score_arg) : option Z :=
  match score with ScoreInt z => Some z | ScoreBlank => None end.


(** A row comes before another when its timestamp is not smaller. *)
Definition newer_first {A} (timestamp_of : A → str) (a b : A) : Prop :=
  str_le (timestamp_of b) (timestamp_of a).

(** The path [NamedTemporaryFile] returns in world [w]. *)
Definition temp_path (w : world) : string := mkstemp w (files w) +:+ ".py".

(** The files at the moment the child is started: the script has been
    created empty, then written. *)
Definition script_files (code : str) (w : world) : gmap string str :=
  <[temp_path w := dedent code]> (<[temp_path w := []]> (files w)).

(** The child process [execute_python_code code] starts in world [w]. *)
Definition child (code : str) (w : world) : process :=
  interp w (dedent code) (script_files code w).

(** The child exits by itself before the timeout expires. *)
Definition in_time (p : process) (timeout : Q) : bool :=
  match exit_after p with
  | Some t => Qle_bool t timeout
  | None => false
  end.

(** Text that [encode] accepts, as is every text that arrives from the
    page. *)
Definition encodable (s : str) : Prop := existsb is_surrogate s = false.

(** What statement [m] adds to the page. *)
Definition shown {A} (m : M A) (w : world) : list ui :=
  drop (length (screen w)) (screen (m w).2).

(** [merged_view] of the grading page. *)
Definition grading_view (w : world) : list MergedView :=
  view_of <$> merge_all (sessions_csv w) (users_csv w) (labs_csv w).

(** One run of the script on a page of the menu. *)
Inductive page :=
  | StartLab (user : User) (inp : start_lab_inputs)
  | MySessions (user : User)
  | GradingDashboard (inp : grading_inputs).

Definition run_page (p : page) : M unit :=
  match p with
  | StartLab user inp => start_lab user inp
  | MySessions user => my_sessions user
  | GradingDashboard inp => grading_dashboard inp
  end.


(** The child is still running when the timeout expires. *)
Definition exceeds_timeout (p : process) (timeout : Q) : Prop :=
  match exit_after p with
  | Some t => (timeout < t)%Q
  | None => True
  end.

(** The result type of the specification, for comparison with the string
    the code returns: a text with an outcome tag. *)
Module ExecutionResult.
Inductive outcome := Success | TimedOut | RuntimeError.

(** The tagged result the specification gives to a child that exits in
    time, in the specification's words: standard output if non-empty,
    with [Success]; else standard error if non-empty, with
    [RuntimeError]; else the sentinel, with [Success]. *)
Definition of_completed (p : process) : outcome * str :=
  let out := strip (stdout p) in
  let err := strip (stderr p) in
  if truthy out then (Success, out)
  else if truthy err then (RuntimeError, err)
  else (Success, lit "(No output)").
End ExecutionResult.


(** The tagged result the specification gives to any run, in the
    specification's words: a child that is still running when the timeout
    expires gives the sentinel timeout message, with [TimedOut]; a child
    that exits in time gives the result above. *)
Definition tagged_result (p : process) (timeout : Q)
    : ExecutionResult.outcome * str :=
  if in_time p timeout then ExecutionResult.of_completed p
  else (ExecutionResult.TimedOut, timeout_message).

(** A machine whose programs run for a minute, and one whose programs
    print the words of the timeout message and exit after a second. *)
Definition hanging_world : world := fresh_world (fixed_interp (Some 60%Q) [] []).
Definition mimic_world : world :=
  fresh_world (fixed_interp (Some 1%Q) timeout_message []).

(** A table with a graded session of the student and a save-only session
    whose user and lab are in neither of the other two tables. *)
Definition graded_session : Session :=
  mkSession 1 2 1 (lit "print('Hello World')") (lit "Hello World") (Some 100)
    (lit "2024-05-01 10:00:00").

Definition orphan_session : Session :=
  mkSession 2 9 7 (lit "print(") [] None (lit "2024-05-02 09:30:00").

Definition two_sessions_world : world :=
  mkWorld ∅ ∅ true echo_interp (λ _, "/tmp/tmpq3x"%string) []
    [instructor; student] [basic_python] [graded_session; orphan_session]
    (lit "2024-05-03 08:00:00") [].

(** The machine after the student pressed "Save Code Only" once. *)
Definition saved_only_world : world :=
  (start_lab student
     (mkStartLab (Some (lit "Basic Python")) (lit "print('Hello") false true)
     (fresh_world echo_interp)).2.

(** The reading under which sessions without a score are left out of the
    grading table: no row of a table shown by the grading page carries the
    identifier of such a session. *)
Definition null_scores_hidden (inp : grading_inputs) (w : world) : Prop :=
  ∀ s rows row,
    s ∈ sessions_csv w → score s = None →
    DataFrameMerged rows ∈ shown (grading_dashboard inp) w →
    row ∈ rows → v_session_id row ≠ session_id s.


(** A machine on which no [python] executable is installed. *)
Definition no_python_world : world :=
  mkWorld ∅ ∅ false echo_interp (λ _, "/tmp/tmpq3x"%string) []
    [instructor] [basic_python] [] (lit "2024-05-01 10:00:00") [].

(** ** Accounts, labs and the menu *)

Definition set_users (df : list User) (w : world) : world :=
  mkWorld (files w) (undeletable w) (python_on_path w) (interp w) (mkstemp w)
    (syslog w) df (labs_csv w) (sessions_csv w) (now w) (screen w).

Definition set_labs (df : list Lab) (w : world) : world :=
  mkWorld (files w) (undeletable w) (python_on_path w) (interp w) (mkstemp w)
    (syslog w) (users_csv w) df (sessions_csv w) (now w) (screen w).

(** [save_csv] on the users and on the labs. The tables are kept as the
    frames they hold: the text of the CSV files is not part of the model. *)
Definition save_users (df : list User) : M unit := λ w, (Ret (), set_users df w).
Definition save_labs (df : list Lab) : M unit := λ w, (Ret (), set_labs df w).

(** Widget values of the registration form. *)
Record register_inputs := mkRegister {
  reg_name : str;
  reg_email : str;
  reg_password : str;
  register_clicked : bool }.

(** Widget values of the login form. *)
Record login_inputs := mkLogin {
  login_email : str;
  login_password : str;
  login_clicked : bool }.

(** Widget values of the lab creation form. *)
Record dashboard_inputs := mkDashboard {
  new_title : str;
  new_desc : str;
  new_expected_output : str;
  create_clicked : bool }.

(** What the pages below put on the screen besides the elements of [ui]:
    [st.error], [st.table] of the labs, and the two sidebar elements. *)
Inductive element :=
  | Basic (e : ui)
  | Error (s : str)
  | Table (rows : list Lab)
  | SidebarTitle (s : str)
  | SidebarSuccess (s : str).

(** The application: the machine, [st.session_state["user"]] and the page
    of the current run. *)
Record app := mkApp {
  machine : world;
  session_state : option User;
  rendered : list element }.

Definition App (A : Type) : Type := app → result A * app.

Definition app_bind {A B} (m : App A) (k : A → App B) : App B :=
  λ s, match m s with
       | (Ret a, s') => k a s'
       | (Raise e, s') => (Raise e, s')
       end.

Global Instance App_ret : MRet App := λ A a s, (Ret a, s).
Global Instance App_bind : MBind App := λ A B k m, app_bind m k.

(** A statement of the machine, run inside the application: what it shows
    goes to the page. *)
Definition lift {A} (m : M A) : App A :=
  λ s, ((m (machine s)).1,
        mkApp (m (machine s)).2 (session_state s)
          (rendered s ++ (Basic <$> shown m (machine s)))).

Definition put (e : element) : App unit :=
  λ s, (Ret (), mkApp (machine s) (session_state s) (rendered s ++ [e])).

(** [st.session_state["user"] = ...] and [del st.session_state["user"]] *)
Definition set_session_state (u : option User) : App unit :=
  λ s, (Ret (), mkApp (machine s) u (rendered s)).

Definition get_session_state : App (option User) :=
  λ s, (Ret (session_state s), s).

(** [st.rerun()] *)
Definition st_rerun {A} : App A := λ s, (Raise RerunException, s).

(** The items of the sidebar menu: "Login", "Register", "About",
    "Dashboard", "Start Lab", "My Sessions", "Grading Dashboard",
    "Logout". *)
Inductive menu_item :=
  | MenuLogin | MenuRegister | MenuAbout | MenuDashboard | MenuStartLab
  | MenuMySessions | MenuGradingDashboard | MenuLogout.

Global Instance menu_item_eq_dec : EqDecision menu_item.
Proof. solve_decision. Defined.

(** [st.sidebar.radio(label, options)]: the item picked when it is one of
    the options, the first option otherwise. *)
Definition radio (options : list menu_item) (picked : menu_item) : menu_item :=
  if decide (picked ∈ options) then picked
  else match options with o :: _ => o | [] => picked end.

(** Widget values of one run of [main]. *)
Record main_inputs := mkMain {
  menu_picked : menu_item;
  in_login : login_inputs;
  in_register : register_inputs;
  in_dashboard : dashboard_inputs;
  in_start_lab : start_lab_inputs;
  in_grading : grading_inputs;
  logout_clicked : bool }.

(** [about]: the argument of [st.markdown], as written in the script. *)
Definition about_text : str :=
  [10%N]
    ++ lit "    **Cloud-Based Virtual Laboratory**  "
    ++ [10%N]
    ++ lit "    "
    ++ [128272%N]
    ++ lit " Secure password hashing (SHA256)  "
    ++ [10%N]
    ++ lit "    "
    ++ [129518%N]
    ++ lit " Auto-grading system (expected output matching)  "
    ++ [10%N]
    ++ lit "    "
    ++ [128202%N]
    ++ lit " Instructor grading dashboard (view + edit scores)  "
    ++ [10%N]
    ++ lit "    "
    ++ [128190%N]
    ++ lit " Data stored in a Cloud  "
    ++ [10%N; 10%N]
    ++ lit "    **Default Instructor:**  "
    ++ [10%N]
    ++ lit "    `instructor@gmail.com` / `password`"
    ++ [10%N]
    ++ lit "    ".

Definition about : M unit :=
  st (Title ([0x2139; 0xFE0F]%N ++ lit " About This Project"));;
  st (Markdown about_text).

Section accounts.

(** [hashlib.sha256(data).hexdigest()] *)
Variable sha256_hexdigest : str → str.

(** [hash_password]: the password is encoded, then digested. *)
Definition hash_password (password : str) : M str :=
  data ← encode password;
  mret (sha256_hexdigest data).

(** [register], on the widget values of the run. *)
Definition register (inp : register_inputs) : M unit :=
  st (Subheader (0x1F4DD%N :: lit " Register (Student)"));;
  if register_clicked inp then
    df ← load_users;
    if decide (reg_email inp ∈ email <$> df) then
      st (Warning (lit "Email already registered."))
    else
      new_id ← (if negb (df_empty df)
                then (m ← int (series_max (id <$> df)); mret (m + 1))
                else mret 1);
      hashed ← hash_password (reg_password inp);
      let df := df ++ [mkUser new_id (reg_name inp) (reg_email inp) hashed
                         (lit "student")] in
      save_users df;;
      st (Success (lit "Registration successful! Please login."))
  else mret ().

(** [login]: the first row with the address and the digest typed goes
    into the session. *)
Definition login (inp : login_inputs) : App unit :=
  lift (st (Subheader ([0x1F9D1; 0x200D; 0x1F4BB]%N
                       ++ lit " Cloud based Virtual Lababoratory for Online Learning")));;
  lift (st (Subheader (0x1F510%N :: lit " Login")));;
  if login_clicked inp then
    df ← lift load_users;
    hashed ← lift (hash_password (login_password inp));
    let user := filter (λ u, email u = login_email inp ∧ password_hash u = hashed) df in
    match user with
    | u :: _ =>
        set_session_state (Some u);;
        lift (st (Success (lit "Welcome, " ++ name u ++ lit "!")));;
        st_rerun
    | [] => put (Error (lit "Invalid email or password."))
    end
  else mret ().

(** [dashboard]; [user] is [st.session_state["user"]], which [main] finds
    in the session before it shows this page. *)
Definition dashboard (user : User) (inp : dashboard_inputs) : App unit :=
  lift (st (Title (0x1F4DA%N :: lit " Dashboard")));;
  labs_df ← lift load_labs;
  put (Table labs_df);;
  if decide (role user = lit "instructor") then
    lift (st (Subheader (0x2795%N :: lit " Create New Lab")));;
    if create_clicked inp then
      if truthy (strip (new_title inp)) then
        new_id ← lift (if negb (df_empty labs_df)
                       then (m ← int (series_max (lab_id <$> labs_df)); mret (m + 1))
                       else mret 1);
        let labs_df := labs_df ++ [mkLab new_id (new_title inp) (new_desc inp)
                                     (new_expected_output inp)] in
        lift (save_labs labs_df);;
        lift (st (Success (lit "New lab added successfully!")));;
        st_rerun
      else lift (st (Warning (lit "Please enter a lab title.")))
    else mret ()
  else mret ().

(** [main]: one run of the script. *)
Definition main (inp : main_inputs) : App unit :=
  put (SidebarTitle (lit "Navigation"));;
  s ← get_session_state;
  match s with
  | None =>
      let menu := radio [MenuLogin; MenuRegister; MenuAbout] (menu_picked inp) in
      if decide (menu = MenuLogin) then login (in_login inp)
      else if decide (menu = MenuRegister) then lift (register (in_register inp))
      else lift about
  | Some user =>
      let menu :=
        if decide (role user = lit "instructor")
        then radio [MenuDashboard; MenuStartLab; MenuGradingDashboard;
                    MenuLogout; MenuAbout] (menu_picked inp)
        else radio [MenuDashboard; MenuStartLab; MenuMySessions;
                    MenuLogout; MenuAbout] (menu_picked inp) in
      put (SidebarSuccess (lit "Logged in as " ++ name user ++ lit " ("
                           ++ role user ++ lit ")"));;
      if decide (menu = MenuDashboard) then dashboard user (in_dashboard inp)
      else if decide (menu = MenuStartLab)
           then lift (start_lab user (in_start_lab inp))
      else if decide (menu = MenuMySessions) then lift (my_sessions user)
      else if decide (menu = MenuGradingDashboard ∧ role user = lit "instructor")
           then lift (grading_dashboard (in_grading inp))
      else if decide (menu = MenuAbout) then lift about
      else if decide (menu = MenuLogout) then
             if logout_clicked inp then
               set_session_state None;;
               lift (st (Success (lit "Logged out successfully!")));;
               st_rerun
             else mret ()
      else mret ()
  end.

End accounts.

(** A stand-in for the digest, for the sample runs: the text reversed. *)
Definition toy_digest (data : str) : str := reverse data.

(** The identifier the account and lab forms compute for a new row: one
    more than the greatest, 1 on an empty table. *)
Definition next_of (ids : list Z) : Z :=
  match series_max ids with
  | Some m => m + 1
  | None => 1
  end.


(** A registration form filled in by a new student, and one that names the
    default instructor's address. *)
Definition grace_form : register_inputs :=
  mkRegister (lit "Grace") (lit "grace@example.org") (lit "s3cret") true.


(** Statement [m] of the application keeps property [Q] of the machine. *)
Definition keeps {A} (Q : world → Prop) (m : App A) : Prop :=
  ∀ s, Q (machine s) → Q (machine (m s).2).


(** A machine on which one student has registered, with [toy_digest] for
    the digest. *)
Definition grace : User :=
  mkUser 2 (lit "Grace") (lit "grace@example.org") (lit "terc3s")
    (lit "student").

Definition campus : world :=
  mkWorld ∅ ∅ true echo_interp (λ _, "/tmp/tmpq3x"%string) []
    [instructor; grace] [basic_python] [] (lit "2024-05-01 10:00:00") [].

(** A browser session on machine [w]: nobody signed in, or [u] signed in. *)
Definition visitor (w : world) : app := mkApp w None [].
Definition signed_in (u : User) (w : world) : app := mkApp w (Some u) [].

(** What is typed into the pages in the sample runs. *)
Definition idle_inputs : main_inputs :=
  mkMain MenuAbout (mkLogin [] [] false) (mkRegister [] [] [] false)
    (mkDashboard [] [] [] false) (mkStartLab None [] false false)
    (mkGrading 1 0 false) false.

(** * Properties *)

(** ** Strings *)

Lemma lstrip_suffix s : ∃ pre, s = pre ++ lstrip s ∧ forallb isspace pre = true.
Proof.
  induction s as [|c r [pre [E F]]]; simpl.
  - by exists [].
  - destruct (isspace c) eqn:Hc.
    + exists (c :: pre). simpl. rewrite Hc, F. by rewrite <- E.
    + by exists [].
Qed.

Lemma lstrip_head c r s : lstrip s = c :: r → isspace c = false.
Proof.
  induction s as [|d s IH]; simpl; [done|].
  destruct (isspace d) eqn:Hd; [done|]. by intros [= <- _].
Qed.

Lemma lstrip_fixed c r : isspace c = false → lstrip (c :: r) = c :: r.
Proof. intros H. simpl. by rewrite H. Qed.

(** [strip] removes whitespace from both ends and nothing else. *)
Lemma strip_decompose s :
  ∃ pre post, s = pre ++ strip s ++ post
    ∧ forallb isspace pre = true ∧ forallb isspace post = true.
Proof.
  destruct (lstrip_suffix s) as [pre [E F]].
  destruct (lstrip_suffix (reverse (lstrip s))) as [post [E' F']].
  exists pre, (reverse post). unfold strip, rstrip. split_and!; [|done|].
  - rewrite E at 1. f_equal. rewrite <- reverse_app, <- E'.
    by rewrite reverse_involutive.
  - apply forallb_forall. intros x Hx.
    apply (proj1 (forallb_forall _ _) F').
    apply list_elem_of_In. apply list_elem_of_In in Hx.
    by rewrite elem_of_reverse in Hx.
Qed.

Lemma str_leb_total a b : str_leb a b = true ∨ str_leb b a = true.
Proof.
  revert b. induction a as [|x a IH]; intros [|y b]; simpl; auto.
  rewrite (N.compare_antisym x y).
  destruct (N.compare x y); simpl; auto.
Qed.

Lemma str_leb_refl a : str_leb a a = true.
Proof. induction a as [|x a IH]; simpl; [done|]. by rewrite N.compare_refl. Qed.

Global Instance str_le_total : Total str_le.
Proof. intros a b. apply str_leb_total. Qed.

(** ** The grader *)


(** ** Running statements *)


Lemma preserves_ret {A} P (a : A) : preserves P (mret a).
Proof. by intros w. Qed.

Lemma preserves_raise {A} P e : preserves P (@raise A e).
Proof. by intros w. Qed.

Lemma preserves_bind {A B} P (m : M A) (k : A → M B) :
  preserves P m → (∀ a, preserves P (k a)) → preserves P (m ≫= k).
Proof.
  intros Hm Hk w Hw. unfold mbind, M_bind, bind.
  specialize (Hm w Hw). destruct (m w) as [[a|e] w']; simpl in *; [|done].
  by apply Hk.
Qed.

Lemma preserves_try_except {A} P (body : M A) handled handler :
  preserves P body → (∀ e, preserves P (handler e)) →
  preserves P (try_except body handled handler).
Proof.
  intros Hb Hh w Hw. unfold try_except.
  specialize (Hb w Hw). destruct (body w) as [[a|e] w']; simpl in *; [done|].
  destruct (handled e); [by apply Hh|done].
Qed.

Lemma preserves_try_finally {A} P (body : M A) final :
  preserves P body → preserves P final → preserves P (try_finally body final).
Proof.
  intros Hb Hf w Hw. unfold try_finally.
  specialize (Hb w Hw). destruct (body w) as [r w']; simpl in *.
  specialize (Hf w' Hb). by destruct (final w') as [[[]|e] w''].
Qed.

Lemma preserves_if {A} P (b : bool) (m1 m2 : M A) :
  preserves P m1 → preserves P m2 → preserves P (if b then m1 else m2).
Proof. by destruct b. Qed.

(** The runner touches the files and the system-call log only: it keeps
    every property of the world that does not depend on them. *)
Section runner_frame.
Context (P : world → Prop).
Context (P_files : ∀ f w, P w → P (set_files f w)).
Context (P_log : ∀ c w, P w → P (log_sys c w)).

Lemma frame_encode s : preserves P (encode s).
Proof. unfold encode. destruct (existsb _ _); by intros w. Qed.
Lemma frame_NamedTemporaryFile suffix : preserves P (NamedTemporaryFile suffix).
Proof using P_files P_log. intros w Hw. by apply P_log, P_files. Qed.
Lemma frame_write path data : preserves P (write path data).
Proof using P_files P_log. intros w Hw. by apply P_log, P_files. Qed.
Lemma frame_os_remove path : preserves P (os_remove path).
Proof using P_files P_log.
  intros w Hw. unfold os_remove.
  destruct (files w !! path); [|by apply P_log].
  case_decide; simpl; [by apply P_log|by apply P_log, P_files].
Qed.
Lemma frame_subprocess_run path timeout : preserves P (subprocess_run path timeout).
Proof using P_files P_log.
  intros w Hw. unfold subprocess_run.
  destruct (python_on_path w); [|by apply P_log].
  destruct (exit_after _) as [t|]; [destruct (Qle_bool t timeout)|]; simpl;
    auto using P_log, P_files.
Qed.

Lemma frame_execute_python_code code timeout :
  preserves P (execute_python_code code timeout).
Proof using P_files P_log.
  unfold execute_python_code.
  repeat first
    [ apply preserves_bind; [|intros ?]
    | apply preserves_try_finally
    | apply preserves_try_except; [|intros ?]
    | apply preserves_ret
    | apply frame_NamedTemporaryFile | apply frame_encode | apply frame_write
    | apply frame_subprocess_run | apply frame_os_remove ].
Qed.
End runner_frame.

Lemma execute_python_code_sessions_csv code timeout w :
  sessions_csv (execute_python_code code timeout w).2 = sessions_csv w.
Proof. by apply (frame_execute_python_code (λ w', sessions_csv w' = sessions_csv w)). Qed.


Lemma execute_python_code_screen code timeout w :
  screen (execute_python_code code timeout w).2 = screen w.
Proof. by apply (frame_execute_python_code (λ w', screen w' = screen w)). Qed.


(** ** The session store *)

Lemma foldl_max_ge x l : x ≤ foldl Z.max x l.
Proof. revert x. induction l as [|y l IH]; intros x; simpl; [lia|]. specialize (IH (Z.max x y)). lia. Qed.

Lemma foldl_max_bound x l : Forall (λ i, i ≤ foldl Z.max x l) l.
Proof.
  revert x. induction l as [|y l IH]; intros x; simpl; constructor.
  - pose proof (foldl_max_ge (Z.max x y) l). lia.
  - apply IH.
Qed.

Lemma foldl_max_elem x l : foldl Z.max x l ∈ x :: l.
Proof.
  revert x. induction l as [|y l IH]; intros x; simpl; [set_solver|].
  specialize (IH (Z.max x y)). apply elem_of_cons in IH as [IH|IH].
  - rewrite IH. destruct (Z.max_spec x y) as [[_ ->]|[_ ->]]; set_solver.
  - set_solver.
Qed.

(** [series_max] on a non-empty column is its greatest element. *)
Lemma series_max_spec xs m :
  series_max xs = Some m ↔ m ∈ xs ∧ Forall (λ i, i ≤ m) xs.
Proof.
  destruct xs as [|x l]; simpl.
  - split; [done|]. intros [H _]. by apply elem_of_nil in H.
  - split.
    + intros [= <-]. split; [apply foldl_max_elem|].
      constructor; [apply foldl_max_ge|apply foldl_max_bound].
    + intros [Hm Hb]. f_equal.
      pose proof (foldl_max_elem x l) as He.
      pose proof (foldl_max_ge x l). pose proof (foldl_max_bound x l) as Hb'.
      rewrite Forall_forall in Hb. specialize (Hb _ He).
      apply elem_of_cons in Hm as [->|Hm]; [lia|].
      rewrite Forall_forall in Hb'. specialize (Hb' _ Hm). lia.
Qed.



(** [save_session] never raises: it appends one row and saves. *)
Lemma save_session_run user_id lab_id code output score w :
  save_session user_id lab_id code output score w =
    (Ret (), set_sessions
               (sessions_csv w ++
                  [mkSession (next_id (sessions_csv w)) user_id lab_id code output
                     (score_cell score) (now w)]) w).
Proof.
  unfold save_session, next_id, mbind, M_bind, bind, load_sessions. simpl.
  by destruct (sessions_csv w).
Qed.






(** ** The runner *)

Ltac run_execute :=
  unfold execute_python_code, mbind, M_bind, bind, try_finally, try_except,
    NamedTemporaryFile, encode, write, subprocess_run, os_remove, mret, M_ret,
    ret, raise, set_files, log_sys; simpl.

(** The setters rebuild the whole record: proofs about a run start by
    naming the fields of the world, which keeps the terms small. *)
Ltac open_world w :=
  unfold in_time, child, script_files, temp_path in *;
  destruct w as [fs und py run mk sys us ls ss clock scr]; simpl in *.

Lemma deleted_script_lookup (fs : gmap string str) path :
  delete path fs !! path = None.
Proof. apply lookup_delete_eq. Qed.

(** The value [execute_python_code] returns when the interpreter can be
    started. *)
Lemma execute_python_code_value code timeout w :
  encodable (dedent code) → python_on_path w = true →
  (execute_python_code code timeout w).1 =
    Ret (if in_time (child code w) timeout then
           let out := strip (stdout (child code w)) in
           let err := strip (stderr (child code w)) in
           if truthy out then out else if truthy err then err
           else lit "(No output)"
         else timeout_message).
Proof.
  intros Henc Hpy. unfold encodable in Henc. open_world w. subst py.
  run_execute. rewrite Henc. simpl. rewrite lookup_insert_eq.
  set (p := run _ _).
  destruct (exit_after p) as [t|]; [destruct (Qle_bool t timeout)|]; simpl;
    destruct (files_after p !! _); simpl; try case_decide; reflexivity.
Qed.

(** The system calls [execute_python_code] makes, in order. *)
Lemma execute_python_code_syslog code timeout w :
  encodable (dedent code) → python_on_path w = true →
  ∃ ok,
    syslog (execute_python_code code timeout w).2 =
      syslog w ++ [SysCreate (temp_path w); SysWrite (temp_path w) (dedent code);
                   SysSpawn ["python"; temp_path w]]
        ++ (if in_time (child code w) timeout then [] else [SysKill])
        ++ [SysUnlink (temp_path w) ok]
    ∧ (ok = false → temp_path w ∈ undeletable w
                    ∨ files_after (child code w) !! temp_path w = None).
Proof.
  intros Henc Hpy. unfold encodable in Henc. open_world w. subst py.
  run_execute. rewrite Henc. simpl. rewrite lookup_insert_eq.
  set (p := run _ _).
  destruct (exit_after p) as [t|]; [destruct (Qle_bool t timeout)|]; simpl;
    destruct (files_after p !! _) eqn:E; simpl; try case_decide; simpl;
    eexists; (split; [rewrite <- ?(assoc_L (++)); reflexivity|]); auto; done.
Qed.



Lemma exceeds_timeout_in_time p timeout :
  exceeds_timeout p timeout → in_time p timeout = false.
Proof.
  unfold exceeds_timeout, in_time. destruct (exit_after p) as [t|]; [|done].
  intros Hlt. destruct (Qle_bool t timeout) eqn:E; [|done].
  apply Qle_bool_iff in E. by apply Qlt_not_le in Hlt.
Qed.




(** C4 (amended). For every source text whose execution exceeds the
    timeout (5 seconds unless the caller says otherwise), the child is
    killed right after it was started, whatever it had written is dropped,
    and the timeout sentinel is returned as an ordinary string, not
    raised. The string is all that is returned: there is no outcome
    beside it. *)
Theorem execute_timeout_sentinel code timeout w :
  encodable (dedent code) → python_on_path w = true →
  exceeds_timeout (child code w) timeout →
  (execute_python_code code timeout w).1 = Ret timeout_message
  ∧ (∃ ok, syslog (execute_python_code code timeout w).2 =
       syslog w ++ [SysCreate (temp_path w); SysWrite (temp_path w) (dedent code);
                    SysSpawn ["python"; temp_path w]; SysKill;
                    SysUnlink (temp_path w) ok])
  ∧ default_timeout = 5%Q.
Proof.
  intros Henc Hpy Hex. apply exceeds_timeout_in_time in Hex.
  split_and!; [|destruct (execute_python_code_syslog code timeout w) as [ok [E _]]|];
    [..|reflexivity]; try done.
  - rewrite execute_python_code_value by done. by rewrite Hex.
  - exists ok. rewrite E, Hex. reflexivity.
Qed.

Lemma execute_timeout_sentinel_witness :
  (execute_python_code (lit "import time; print('x'); time.sleep(60)")
     default_timeout
     (fresh_world (fixed_interp (Some 60%Q) (lit "x") []))).1
  = Ret timeout_message.
Proof.
  refine (proj1 (execute_timeout_sentinel _ _ _ _ _ _));
    [reflexivity|reflexivity|reflexivity].
Defined.

(** C4, as claimed, fails: no reading of the returned value yields the
    outcome [TimedOut] for the runs that exceed the timeout and the
    specification's outcome for the others. A program that is still
    running when the timeout expires and one that prints the words of the
    timeout message in time return the same string, for which the
    specification asks [TimedOut] in one case and [Success] in the
    other. *)
Lemma timeout_returns_no_outcome :
  ¬ ∃ read : result str → ExecutionResult.outcome * str,
      ∀ w, w ∈ [hanging_world; mimic_world] →
        read (execute_python_code [] default_timeout w).1
        = tagged_result (child [] w) default_timeout.
Proof.
  intros [read H].
  pose proof (H hanging_world ltac:(set_solver)) as H1.
  pose proof (H mimic_world ltac:(set_solver)) as H2.
  rewrite execute_python_code_value in H1, H2 by reflexivity.
  vm_compute in H1, H2. congruence.
Qed.

Lemma execute_python_code_no_python code timeout w :
  encodable (dedent code) → python_on_path w = false →
  (execute_python_code code timeout w).1 = Raise FileNotFoundError
  ∧ (∃ ok, last (syslog (execute_python_code code timeout w).2)
           = Some (SysUnlink (temp_path w) ok))
  ∧ files (execute_python_code code timeout w).2 =
      if decide (temp_path w ∈ undeletable w) then script_files code w
      else delete (temp_path w) (script_files code w).
Proof.
  intros Henc Hpy. unfold encodable in Henc. open_world w. subst py.
  run_execute. rewrite Henc. simpl. rewrite lookup_insert_eq.
  case_decide; simpl; split_and!; try done; eexists; apply last_snoc.
Qed.



(** On a text with a lone surrogate nothing is run: [encode] raises inside
    the [with] block, before the [try] statement is entered. *)
Lemma execute_python_code_unencodable code timeout w :
  ¬ encodable (dedent code) →
  (execute_python_code code timeout w).1 = Raise UnicodeEncodeError
  ∧ syslog (execute_python_code code timeout w).2
    = syslog w ++ [SysCreate (temp_path w)].
Proof.
  intros Henc. unfold encodable in Henc. apply not_false_is_true in Henc.
  open_world w. run_execute. by rewrite Henc.
Qed.

(** ** The orchestration of a run *)

Ltac page_simpl :=
  cbn -[filter lit sort_values_desc merge_all view_of grade execute_python_code
        save_session pretty set_score].

Ltac run_page :=
  unfold mbind, M_bind, bind, st, load_labs, load_users, load_sessions,
    save_sessions, mret, M_ret, ret, raise; page_simpl.

(** The runner does not look at the page. *)
Lemma execute_python_code_show code timeout e w :
  execute_python_code code timeout (show e w)
  = ((execute_python_code code timeout w).1,
     show e (execute_python_code code timeout w).2).
Proof.
  open_world w. unfold show. run_execute.
  destruct (existsb is_surrogate (dedent code)); simpl; [done|].
  destruct py; simpl; rewrite !lookup_insert_eq.
  - set (p := run _ _).
    destruct (exit_after p) as [t|]; [destruct (Qle_bool t timeout)|]; simpl;
      destruct (files_after p !! _); simpl; try case_decide; reflexivity.
  - case_decide; reflexivity.
Qed.




(** ** The left join *)

Section merge_left.
Context {L R : Type} (left_on : L → Z) (right_on : R → Z).
Implicit Types (left : list L) (right : list R).

(** The rows one left row gives rise to. *)
Let rows_of (right : list R) (l : L) : list (L * option R) :=
  match filter (λ r, left_on l = right_on r) right with
  | [] => [(l, None)]
  | ms => (λ r, (l, Some r)) <$> ms
  end.

Lemma merge_left_cons l left right :
  merge_left left_on right_on (l :: left) right
  = rows_of right l ++ merge_left left_on right_on left right.
Proof. reflexivity. Qed.

Lemma rows_of_fst right l x : x ∈ rows_of right l → x.1 = l.
Proof.
  unfold rows_of. destruct (filter _ right) as [|r ms].
  - by intros ->%list_elem_of_singleton.
  - by intros (r' & -> & _)%list_elem_of_fmap.
Qed.

Lemma rows_of_snd right l x :
  x ∈ rows_of right l →
  match x.2 with
  | Some r => r ∈ right ∧ left_on l = right_on r
  | None => ∀ r, r ∈ right → left_on l ≠ right_on r
  end.
Proof.
  unfold rows_of. destruct (filter _ right) as [|r ms] eqn:E.
  - intros ->%list_elem_of_singleton. simpl. intros r Hr Hk.
    by apply (filter_nil_not_elem_of _ _ r E).
  - intros (r' & -> & Hr')%list_elem_of_fmap. simpl.
    rewrite <- E in Hr'. apply list_elem_of_filter in Hr' as [? ?]. done.
Qed.

Lemma rows_of_nonempty right l : ∃ o, (l, o) ∈ rows_of right l.
Proof.
  unfold rows_of. destruct (filter _ right) as [|r ms].
  - exists None. apply list_elem_of_here.
  - exists (Some r). apply list_elem_of_here.
Qed.

(** Every row of the join comes from a left row, with a right row under
    the same key or with none when no right row has that key. *)
Lemma elem_of_merge_left left right x :
  x ∈ merge_left left_on right_on left right →
  x.1 ∈ left ∧
  match x.2 with
  | Some r => r ∈ right ∧ left_on x.1 = right_on r
  | None => ∀ r, r ∈ right → left_on x.1 ≠ right_on r
  end.
Proof.
  unfold merge_left. intros (l & Hx & Hl)%list_elem_of_bind.
  fold (rows_of right l) in Hx.
  pose proof (rows_of_snd _ _ _ Hx) as H.
  rewrite (rows_of_fst _ _ _ Hx). by split.
Qed.

(** No left row is dropped. *)
Lemma merge_left_covers left right l :
  l ∈ left → ∃ o, (l, o) ∈ merge_left left_on right_on left right.
Proof.
  intros Hl. destruct (rows_of_nonempty right l) as [o Ho].
  exists o. unfold merge_left. apply list_elem_of_bind. by exists l.
Qed.

Lemma merge_left_empty left right :
  df_empty (merge_left left_on right_on left right) = df_empty left.
Proof.
  destruct left as [|l left]; [done|]. rewrite merge_left_cons.
  destruct (rows_of_nonempty right l) as [o Ho].
  by destruct (rows_of right l); [apply elem_of_nil in Ho|].
Qed.

Lemma filter_unique_key right k :
  NoDup (right_on <$> right) →
  filter (λ r, k = right_on r) right = []
  ∨ ∃ r, filter (λ r, k = right_on r) right = [r].
Proof.
  induction right as [|r right IH]; [by left|].
  rewrite fmap_cons, NoDup_cons. intros [Hr Hnd].
  rewrite filter_cons. case_decide as Hk; [|by apply IH].
  right. exists r. f_equal.
  destruct (filter _ right) as [|r' ms] eqn:E; [done|].
  assert (r' ∈ filter (λ r, k = right_on r) right) as Hr' by (rewrite E; apply list_elem_of_here).
  apply list_elem_of_filter in Hr' as [Hk' Hr']. exfalso. apply Hr.
  rewrite <- Hk, Hk'. by apply list_elem_of_fmap_2.
Qed.

(** With unique right keys the join has exactly the left rows, in
    order. *)
Lemma merge_left_fst_unique left right :
  NoDup (right_on <$> right) →
  (merge_left left_on right_on left right).*1 = left.
Proof.
  intros Hnd. induction left as [|l left IH]; [done|].
  rewrite merge_left_cons, fmap_app, IH. unfold rows_of.
  by destruct (filter_unique_key right (left_on l) Hnd) as [->|[r ->]].
Qed.
End merge_left.

Lemma elem_of_merge_all sessions_df users_df labs_df m :
  m ∈ merge_all sessions_df users_df labs_df →
  m_session m ∈ sessions_df
  ∧ match m_user m with
    | Some u => u ∈ users_df ∧ user_id (m_session m) = id u
    | None => ∀ u, u ∈ users_df → user_id (m_session m) ≠ id u
    end
  ∧ match m_lab m with
    | Some l => l ∈ labs_df ∧ session_lab_id (m_session m) = lab_id l
    | None => ∀ l, l ∈ labs_df → session_lab_id (m_session m) ≠ lab_id l
    end.
Proof.
  unfold merge_all. intros (sul & -> & H)%list_elem_of_fmap. simpl.
  apply elem_of_merge_left in H as [H1 H2].
  apply elem_of_merge_left in H1 as [H0 H1]. done.
Qed.

Lemma merge_all_covers sessions_df users_df labs_df s :
  s ∈ sessions_df →
  ∃ m, m ∈ merge_all sessions_df users_df labs_df ∧ m_session m = s.
Proof.
  intros Hs.
  destruct (merge_left_covers user_id id sessions_df users_df s Hs) as [u Hu].
  destruct (merge_left_covers (λ su : Session * option User, session_lab_id su.1)
              lab_id _ labs_df _ Hu) as [l Hl].
  exists (mkMerged s u l). split; [|done]. unfold merge_all.
  apply list_elem_of_fmap. by exists ((s, u), l).
Qed.

Lemma merge_all_sessions_unique sessions_df users_df labs_df :
  NoDup (id <$> users_df) → NoDup (lab_id <$> labs_df) →
  m_session <$> merge_all sessions_df users_df labs_df = sessions_df.
Proof.
  intros Hu Hl. unfold merge_all. rewrite <- list_fmap_compose.
  rewrite <- (merge_left_fst_unique user_id id sessions_df users_df Hu) at 2.
  rewrite <- (merge_left_fst_unique (λ su : Session * option User, session_lab_id su.1)
                lab_id (merge_left user_id id sessions_df users_df) labs_df Hl) at 2.
  by rewrite <- list_fmap_compose.
Qed.

Lemma merge_all_empty sessions_df users_df labs_df :
  df_empty (view_of <$> merge_all sessions_df users_df labs_df)
  = df_empty sessions_df.
Proof.
  unfold merge_all. rewrite <- (merge_left_empty user_id id sessions_df users_df).
  rewrite <- (merge_left_empty (λ su : Session * option User, session_lab_id su.1)
                lab_id _ labs_df).
  by destruct (merge_left _ lab_id _ _).
Qed.

Lemma grading_view_ids w sid :
  sid ∈ v_session_id <$> grading_view w ↔ sid ∈ session_id <$> sessions_csv w.
Proof.
  unfold grading_view. rewrite <- list_fmap_compose. split.
  - intros (m & -> & Hm)%list_elem_of_fmap. simpl.
    apply elem_of_merge_all in Hm as [Hm _]. by apply list_elem_of_fmap_2.
  - intros (s & -> & Hs)%list_elem_of_fmap.
    destruct (merge_all_covers _ (users_csv w) (labs_csv w) s Hs) as (m & Hm & <-).
    apply list_elem_of_fmap. by exists m.
Qed.

(** ** Sorting by timestamp *)

Lemma str_leb_trans a b c :
  str_leb a b = true → str_leb b c = true → str_leb a c = true.
Proof.
  revert b c. induction a as [|x a IH]; intros [|y b] [|z c]; simpl; try done.
  destruct (N.compare_spec x y), (N.compare_spec y z), (N.compare_spec x z);
    subst; try done; try lia; eauto.
Qed.

Global Instance str_le_trans : Transitive str_le.
Proof. intros a b c. apply str_leb_trans. Qed.

Section sort_values.
Context {A : Type} (timestamp_of : A → str).

Local Instance newer_first_total : Total (newer_first timestamp_of).
Proof.
  intros a b. unfold newer_first.
  destruct (total str_le (timestamp_of a) (timestamp_of b)); auto.
Qed.

Local Instance newer_first_trans : Transitive (newer_first timestamp_of).
Proof.
  intros a b c H1 H2. unfold newer_first in *.
  by transitivity (timestamp_of b).
Qed.

Lemma sort_values_desc_sorted df :
  StronglySorted (newer_first timestamp_of) (sort_values_desc timestamp_of df).
Proof. apply (StronglySorted_merge_sort (newer_first timestamp_of)). Qed.

Lemma sort_values_desc_perm df : sort_values_desc timestamp_of df ≡ₚ df.
Proof. apply merge_sort_Permutation. Qed.

Lemma sort_values_desc_empty df :
  df_empty (sort_values_desc timestamp_of df) = df_empty df.
Proof.
  pose proof (sort_values_desc_perm df) as H.
  destruct df as [|x df].
  - by apply Permutation_nil_r in H as ->.
  - destruct (sort_values_desc _ _); [|done].
    by apply Permutation_nil_cons in H.
Qed.
End sort_values.

(** ** The two session views *)

Lemma shown_app {A} (m : M A) w l :
  screen (m w).2 = screen w ++ l → shown m w = l.
Proof. unfold shown. intros ->. by rewrite drop_app_length. Qed.

Lemma my_sessions_run user w :
  let my := filter (λ s, user_id s = id user) (sessions_csv w) in
  (my_sessions user w).1 = Ret ()
  ∧ sessions_csv (my_sessions user w).2 = sessions_csv w
  ∧ shown (my_sessions user) w =
      [Title ([0x1F5C2; 0xFE0F]%N ++ lit " My Sessions");
       if df_empty my then Info (lit "No lab sessions yet.")
       else DataFrameSessions (sort_values_desc timestamp my)].
Proof.
  intros my. split_and!; try apply shown_app;
    unfold my_sessions; run_page; fold my;
    destruct (df_empty my); page_simpl; by rewrite <- ?(assoc_L (++)).
Qed.

Lemma grading_dashboard_run inp w :
  let found := decide (sid inp ∈ session_id <$> sessions_csv w) in
  (grading_dashboard inp w).1 =
    (if df_empty (sessions_csv w) then Ret ()
     else if update_clicked inp then
            if found then Raise RerunException else Ret ()
          else Ret ())
  ∧ sessions_csv (grading_dashboard inp w).2 =
    (if update_clicked inp then
       if found then set_score (sid inp) (new_score inp) (sessions_csv w)
       else sessions_csv w
     else sessions_csv w)
  ∧ shown (grading_dashboard inp) w =
      Title (0x1F4CA%N :: lit " Instructor Grading Dashboard") ::
      (if df_empty (sessions_csv w)
       then [Info (lit "No student submissions yet.")]
       else DataFrameMerged (sort_values_desc v_timestamp (grading_view w)) ::
            Subheader (0x1F4DD%N :: lit " Update a Student Score") ::
            (if update_clicked inp then
               if found
               then [Success (lit "Score for session " ++ lit (pretty (sid inp))
                              ++ lit " updated to "
                              ++ lit (pretty (new_score inp)) ++ lit ".")]
               else [Warning (lit "Invalid Session ID.")]
             else [])).
Proof.
  cbv zeta. split_and!; try apply shown_app;
    unfold grading_dashboard; run_page;
    rewrite merge_all_empty; fold (grading_view w);
    rewrite (decide_ext _ _ _ _ (grading_view_ids w (sid inp)));
    destruct (decide (sid inp ∈ session_id <$> sessions_csv w)) as [Hf|Hf];
    destruct (update_clicked inp);
    destruct (sessions_csv w) as [|s df] eqn:E; page_simpl;
    rewrite ?E, <- ?(assoc_L (++)); try done;
    by apply elem_of_nil in Hf.
Qed.

(** ** Session identifiers *)







(** ** Score correction *)

Lemma set_score_lookup sid new_score df i s :
  df !! i = Some s →
  ∃ s', set_score sid new_score df !! i = Some s'
    ∧ session_id s' = session_id s ∧ user_id s' = user_id s
    ∧ session_lab_id s' = session_lab_id s ∧ code s' = code s
    ∧ output s' = output s ∧ timestamp s' = timestamp s
    ∧ (session_id s = sid → score s' = Some new_score)
    ∧ (session_id s ≠ sid → s' = s).
Proof.
  intros Hs. unfold set_score. rewrite list_lookup_fmap, Hs. simpl.
  eexists. split; [done|]. case_decide; simpl; split_and!; done.
Qed.

(** C5. When the update form is submitted: if no session has the given
    identifier, the table is left as it was, nothing is reported as
    updated and the page warns "Invalid Session ID."; if some session has
    it, the table keeps its rows, each with every field but [score] as
    before, the score being the new one on the rows with that identifier
    and untouched on the others. (The form is on the page only when the
    table is not empty; on an empty table the page changes nothing.) *)
Theorem update_score_not_found_or_score_only inp w :
  update_clicked inp = true →
  (sid inp ∉ session_id <$> sessions_csv w →
     sessions_csv (grading_dashboard inp w).2 = sessions_csv w
     ∧ (grading_dashboard inp w).1 = Ret ()
     ∧ (∀ m, Success m ∉ shown (grading_dashboard inp) w)
     ∧ (sessions_csv w ≠ [] →
        last (shown (grading_dashboard inp) w)
        = Some (Warning (lit "Invalid Session ID."))))
  ∧ (sid inp ∈ session_id <$> sessions_csv w →
     length (sessions_csv (grading_dashboard inp w).2) = length (sessions_csv w)
     ∧ ∀ i s, sessions_csv w !! i = Some s →
         ∃ s', sessions_csv (grading_dashboard inp w).2 !! i = Some s'
           ∧ session_id s' = session_id s ∧ user_id s' = user_id s
           ∧ session_lab_id s' = session_lab_id s ∧ code s' = code s
           ∧ output s' = output s ∧ timestamp s' = timestamp s
           ∧ (session_id s = sid inp → score s' = Some (new_score inp))
           ∧ (session_id s ≠ sid inp → s' = s)).
Proof.
  intros Hclick.
  destruct (grading_dashboard_run inp w) as (Hr & Hs & Hshown).
  rewrite Hclick in Hr. rewrite Hclick in Hs. rewrite Hclick in Hshown.
  destruct (decide (sid inp ∈ session_id <$> sessions_csv w)) as [Hf|Hf];
    (split; [intros Hnf|intros Hin]; try done).
  - rewrite Hs. split.
    + unfold set_score. by rewrite length_fmap.
    + intros i s Hi. by apply set_score_lookup.
  - split_and!; [done|by destruct (df_empty _)| |].
    + intros m. rewrite Hshown.
      destruct (df_empty _); intros H;
        repeat (apply elem_of_cons in H as [H|H]; [discriminate|]);
        by apply elem_of_nil in H.
    + intros Hne. rewrite Hshown. by destruct (sessions_csv w).
Qed.

Lemma update_score_not_found_or_score_only_witness :
  sessions_csv (grading_dashboard (mkGrading 5 40 true) two_sessions_world).2
    = [graded_session; orphan_session]
  ∧ score <$> sessions_csv
                (grading_dashboard (mkGrading 2 40 true) two_sessions_world).2
    = [Some 100; Some 40].
Proof.
  split.
  - refine (proj1 (proj1 (update_score_not_found_or_score_only
                            (mkGrading 5 40 true) two_sessions_world eq_refl) _)).
    compute_done.
  - reflexivity.
Defined.

(** ** What the two views show *)

Lemma grading_dashboard_table inp w :
  sessions_csv w ≠ [] →
  ∀ rows, DataFrameMerged rows ∈ shown (grading_dashboard inp) w ↔
          rows = sort_values_desc v_timestamp (grading_view w).
Proof.
  intros Hne rows. rewrite (proj2 (proj2 (grading_dashboard_run inp w))).
  destruct (sessions_csv w) as [|s df]; [done|]. cbn [df_empty].
  rewrite !elem_of_cons. split; [|naive_solver].
  intros [?|[?|[?|H]]]; simplify_eq; [done|].
  destruct (update_clicked inp); [case_decide|];
    rewrite ?list_elem_of_singleton in H; by try apply elem_of_nil in H.
Qed.

Lemma grading_dashboard_no_table inp w rows :
  sessions_csv w = [] → DataFrameMerged rows ∉ shown (grading_dashboard inp) w.
Proof.
  intros E. rewrite (proj2 (proj2 (grading_dashboard_run inp w))), E.
  cbn [df_empty]. rewrite !elem_of_cons. intros [?|[?|H]]; try done.
  by apply elem_of_nil in H.
Qed.

Lemma my_sessions_table user w rows :
  DataFrameSessions rows ∈ shown (my_sessions user) w ↔
  filter (λ s, user_id s = id user) (sessions_csv w) ≠ []
  ∧ rows = sort_values_desc timestamp
             (filter (λ s, user_id s = id user) (sessions_csv w)).
Proof.
  rewrite (proj2 (proj2 (my_sessions_run user w))).
  destruct (filter _ _) as [|s df] eqn:E; cbn [df_empty];
    rewrite !elem_of_cons; split.
  - intros [?|[?|H]]; try done. by apply elem_of_nil in H.
  - by intros [? _].
  - intros [?|[?|H]]; simplify_eq; [done|]. by apply elem_of_nil in H.
  - intros [_ ->]. right. by left.
Qed.

(** Every stored session has a row in the join, with blanks where its user
    or its lab is missing. *)
Lemma grading_view_covers w s :
  s ∈ sessions_csv w →
  ∃ row, row ∈ sort_values_desc v_timestamp (grading_view w)
    ∧ v_session_id row = session_id s ∧ v_output row = output s
    ∧ v_score row = score s ∧ v_timestamp row = timestamp s
    ∧ ((∀ u, u ∈ users_csv w → id u ≠ user_id s) →
       v_name row = None ∧ v_email row = None)
    ∧ ((∀ l, l ∈ labs_csv w → lab_id l ≠ session_lab_id s) →
       v_title row = None).
Proof.
  intros Hs.
  destruct (merge_all_covers _ (users_csv w) (labs_csv w) s Hs) as (m & Hm & <-).
  exists (view_of m). split.
  { rewrite sort_values_desc_perm. unfold grading_view.
    by apply list_elem_of_fmap_2. }
  apply elem_of_merge_all in Hm as (_ & Hu & Hl).
  split_and!; try done.
  - intros Hno. destruct (m_user m) as [u|] eqn:E; [|unfold view_of; by rewrite E].
    destruct Hu as [Hu1 Hu2]. by destruct (Hno u Hu1).
  - intros Hno. destruct (m_lab m) as [l|] eqn:E; [|unfold view_of; by rewrite E].
    destruct Hl as [Hl1 Hl2]. by destruct (Hno l Hl1).
Qed.

(** A session without a score has a row, without a score, in the table the
    grading page shows. *)
Lemma null_score_row_shown inp w s :
  s ∈ sessions_csv w → score s = None →
  ∃ rows row,
    DataFrameMerged rows ∈ shown (grading_dashboard inp) w
    ∧ row ∈ rows ∧ v_session_id row = session_id s ∧ v_score row = None.
Proof.
  intros Hs Hnull.
  destruct (grading_view_covers w s Hs) as (row & Hrow & Hid & _ & Hsc & _).
  eexists _, row. split_and!; [|exact Hrow|done|by rewrite Hsc].
  apply grading_dashboard_table; [|done]. intros E. rewrite E in Hs.
  by apply elem_of_nil in Hs.
Qed.

(** C7. The grading table has a row for every stored session, whether or
    not its user and its lab exist: the row carries the session's
    identifier, output, score and timestamp, with an empty name and email
    when no user has the session's user id and an empty title when no lab
    has its lab id. With unique user ids and unique lab ids the table has
    exactly one row per stored session. *)
Theorem joined_view_keeps_every_session inp w :
  let rows := sort_values_desc v_timestamp (grading_view w) in
  (sessions_csv w ≠ [] →
     DataFrameMerged rows ∈ shown (grading_dashboard inp) w)
  ∧ (∀ s, s ∈ sessions_csv w →
       ∃ row, row ∈ rows
         ∧ v_session_id row = session_id s ∧ v_output row = output s
         ∧ v_score row = score s ∧ v_timestamp row = timestamp s
         ∧ ((∀ u, u ∈ users_csv w → id u ≠ user_id s) →
            v_name row = None ∧ v_email row = None)
         ∧ ((∀ l, l ∈ labs_csv w → lab_id l ≠ session_lab_id s) →
            v_title row = None))
  ∧ (NoDup (id <$> users_csv w) → NoDup (lab_id <$> labs_csv w) →
     v_session_id <$> rows ≡ₚ session_id <$> sessions_csv w
     ∧ length rows = length (sessions_csv w)).
Proof.
  intros rows. split_and!.
  - intros Hne. by apply grading_dashboard_table.
  - intros s Hs. by apply grading_view_covers.
  - intros Hu Hl. unfold rows.
    pose proof (sort_values_desc_perm v_timestamp (grading_view w)) as Hp.
    assert (v_session_id <$> grading_view w = session_id <$> sessions_csv w) as E.
    { unfold grading_view. rewrite <- list_fmap_compose.
      rewrite <- (merge_all_sessions_unique (sessions_csv w) _ _ Hu Hl) at 2.
      by rewrite <- list_fmap_compose. }
    split.
    + by rewrite Hp, E.
    + rewrite Hp. rewrite <- (length_fmap v_session_id), E. by rewrite length_fmap.
Qed.

Lemma joined_view_keeps_every_session_witness :
  ∃ row,
    row ∈ sort_values_desc v_timestamp (grading_view two_sessions_world)
    ∧ v_session_id row = 2 ∧ v_name row = None ∧ v_email row = None
    ∧ v_title row = None.
Proof.
  destruct (proj1 (proj2 (joined_view_keeps_every_session
                            (mkGrading 1 0 false) two_sessions_world))
              orphan_session ltac:(compute_done))
    as (row & Hrow & Hid & _ & _ & _ & Hu & Hl).
  assert (∀ u, u ∈ users_csv two_sessions_world → id u ≠ user_id orphan_session)
    as Hno_user.
  { intros u H. repeat (apply elem_of_cons in H as [->|H]; [done|]).
    by apply elem_of_nil in H. }
  assert (∀ l, l ∈ labs_csv two_sessions_world →
               lab_id l ≠ session_lab_id orphan_session) as Hno_lab.
  { intros l H. repeat (apply elem_of_cons in H as [->|H]; [done|]).
    by apply elem_of_nil in H. }
  destruct (Hu Hno_user) as [Hn He].
  exists row. split_and!; [exact Hrow|exact Hid|exact Hn|exact He|].
  exact (Hl Hno_lab).
Defined.

(** C8. Whatever table either page shows, the rows of the user (for "My
    Sessions") or the rows of the join (for the grading page) are all there
    and come in non-increasing order of timestamp; a table is shown as soon
    as there is a row to show. *)
Theorem views_newest_first user inp w :
  (∀ rows, DataFrameSessions rows ∈ shown (my_sessions user) w →
     StronglySorted (λ a b, str_le (timestamp b) (timestamp a)) rows
     ∧ rows ≡ₚ filter (λ s, user_id s = id user) (sessions_csv w))
  ∧ (∀ rows, DataFrameMerged rows ∈ shown (grading_dashboard inp) w →
     StronglySorted (λ a b, str_le (v_timestamp b) (v_timestamp a)) rows
     ∧ rows ≡ₚ grading_view w)
  ∧ (filter (λ s, user_id s = id user) (sessions_csv w) ≠ [] →
     ∃ rows, DataFrameSessions rows ∈ shown (my_sessions user) w)
  ∧ (sessions_csv w ≠ [] →
     ∃ rows, DataFrameMerged rows ∈ shown (grading_dashboard inp) w).
Proof.
  split_and!.
  - intros rows [_ ->]%my_sessions_table.
    split; [apply sort_values_desc_sorted|apply sort_values_desc_perm].
  - intros rows Hrows. destruct (decide (sessions_csv w = [])) as [E|Hne].
    + by apply grading_dashboard_no_table in Hrows.
    + apply grading_dashboard_table in Hrows as ->; [|done].
      split; [apply sort_values_desc_sorted|apply sort_values_desc_perm].
  - intros Hne. eexists. by apply my_sessions_table.
  - intros Hne. eexists. by apply grading_dashboard_table.
Qed.

Lemma views_newest_first_witness :
  ∃ rows, DataFrameSessions rows ∈ shown (my_sessions student) two_sessions_world
          ∧ rows ≡ₚ [graded_session].
Proof.
  destruct (proj1 (proj2 (proj2 (views_newest_first student (mkGrading 1 0 false)
                                   two_sessions_world))) ltac:(compute_done))
    as [rows Hrows].
  exists rows. split; [exact Hrows|].
  exact (proj2 (proj1 (views_newest_first student (mkGrading 1 0 false)
                         two_sessions_world) rows Hrows)).
Defined.

(** "Save Code Only" on a lab that exists: nothing is run, and the session
    that is stored has no output and no score. *)
Lemma start_lab_save_only user inp w lab :
  head (filter (λ l, Some (title l) = chosen_lab inp) (labs_csv w)) = Some lab →
  run_clicked inp = false → save_clicked inp = true →
  (start_lab user inp w).1 = Ret ()
  ∧ syslog (start_lab user inp w).2 = syslog w
  ∧ sessions_csv (start_lab user inp w).2 =
      sessions_csv w ++
        [mkSession (next_id (sessions_csv w)) (id user) (lab_id lab)
           (code_area inp) [] None (now w)].
Proof.
  intros Hlab Hrun Hsave. unfold start_lab. run_page.
  destruct (filter _ _); simplify_eq/=.
  rewrite Hrun, Hsave. page_simpl. by rewrite save_session_run.
Qed.

(** C6 (amended). For every store state, a session whose score is null is
    included in the "my sessions" view of the user who created it, and it
    is included in the instructor's grading table as well, with an empty
    score; "Save Code Only" creates such a session. *)
Theorem null_score_session_in_both_views inp user w s :
  s ∈ sessions_csv w → score s = None →
  (∃ rows row,
     DataFrameMerged rows ∈ shown (grading_dashboard inp) w
     ∧ row ∈ rows ∧ v_session_id row = session_id s ∧ v_score row = None)
  ∧ (id user = user_id s →
     ∃ rows, DataFrameSessions rows ∈ shown (my_sessions user) w ∧ s ∈ rows)
  ∧ (∀ sinp lab,
       head (filter (λ l, Some (title l) = chosen_lab sinp) (labs_csv w)) = Some lab →
       run_clicked sinp = false → save_clicked sinp = true →
       ∃ new, sessions_csv (start_lab user sinp w).2 = sessions_csv w ++ [new]
              ∧ user_id new = id user ∧ score new = None).
Proof.
  intros Hs Hnull. split_and!.
  - by apply null_score_row_shown.
  - intros Hu.
    assert (s ∈ filter (λ s', user_id s' = id user) (sessions_csv w)) as Hin.
    { apply list_elem_of_filter. by split. }
    eexists. split.
    + apply my_sessions_table. split; [|done]. intros E. rewrite E in Hin.
      by apply elem_of_nil in Hin.
    + by rewrite sort_values_desc_perm.
  - intros sinp lab Hlab Hrun Hsave.
    destruct (start_lab_save_only user sinp w lab Hlab Hrun Hsave) as (_ & _ & E).
    eexists. split; [exact E|done].
Qed.

Lemma null_score_session_in_both_views_witness :
  ∃ rows row,
    DataFrameMerged rows
      ∈ shown (grading_dashboard (mkGrading 1 0 false)) two_sessions_world
    ∧ row ∈ rows ∧ v_session_id row = 2 ∧ v_score row = None.
Proof.
  exact (proj1 (null_score_session_in_both_views (mkGrading 1 0 false) student
                  two_sessions_world orphan_session
                  ltac:(compute_done) eq_refl)).
Defined.

(** C6, as claimed, fails: after one "Save Code Only" the grading page
    shows a table, and that table has a row for the saved session, whose
    score is null. *)
Lemma null_score_session_is_in_grading_view :
  ¬ null_scores_hidden (mkGrading 1 0 false) saved_only_world.
Proof.
  intros H.
  destruct (null_score_row_shown (mkGrading 1 0 false) saved_only_world
              (mkSession 1 2 1 (lit "print('Hello") [] None
                 (lit "2024-05-01 10:00:00"))
              ltac:(compute_done) eq_refl)
    as (rows & row & Hrows & Hrow & Hid & _).
  by eapply H; [| |exact Hrows|exact Hrow|exact Hid]; [compute_done|].
Qed.


(** * Further properties *)

(** ** Trimming *)

Lemma lstrip_blank_iff s : lstrip s = [] ↔ forallb isspace s = true.
Proof.
  induction s as [|c s IH]; simpl; [done|].
  destruct (isspace c); simpl; [done|]. split; intros; done.
Qed.

Lemma lstrip_app_blank pre s :
  forallb isspace pre = true → lstrip (pre ++ s) = lstrip s.
Proof.
  induction pre as [|c pre IH]; simpl; [done|].
  destruct (isspace c); simpl; [done|]. intros; done.
Qed.

Lemma lstrip_app_text a b : lstrip a ≠ [] → lstrip (a ++ b) = lstrip a ++ b.
Proof.
  induction a as [|c a IH]; simpl; [done|]. by destruct (isspace c).
Qed.

Lemma lstrip_idemp s : lstrip (lstrip s) = lstrip s.
Proof.
  destruct (lstrip s) as [|c r] eqn:E; [done|].
  apply lstrip_fixed. by eapply lstrip_head.
Qed.

Lemma forallb_isspace_reverse s :
  forallb isspace (reverse s) = forallb isspace s.
Proof.
  apply eq_true_iff_eq. rewrite !forallb_forall. split; intros H x Hx; apply H;
    apply list_elem_of_In; apply list_elem_of_In in Hx;
    by rewrite elem_of_reverse in *.
Qed.

Lemma rstrip_app_blank s post :
  forallb isspace post = true → rstrip (s ++ post) = rstrip s.
Proof.
  intros H. unfold rstrip. rewrite reverse_app, lstrip_app_blank; [done|].
  by rewrite forallb_isspace_reverse.
Qed.





(** Blanks around a text do not change what [strip] returns. *)
Lemma strip_padding pre s post :
  forallb isspace pre = true → forallb isspace post = true →
  strip (pre ++ s ++ post) = strip s.
Proof.
  intros Hpre Hpost. unfold strip. rewrite lstrip_app_blank by done.
  destruct (lstrip s) as [|c r] eqn:E.
  - apply lstrip_blank_iff in E.
    assert (lstrip (s ++ post) = []) as ->; [|done].
    apply lstrip_blank_iff. rewrite forallb_app. by rewrite E, Hpost.
  - rewrite lstrip_app_text by (by rewrite E). rewrite E.
    by apply rstrip_app_blank.
Qed.

(** X1. The grade does not depend on the whitespace around the output or
    around the expected output, and it does not depend on which of the two
    texts is the output. *)
Theorem grade_ignores_surrounding_whitespace
    (pre post pre' post' output expected : str) :
  forallb isspace pre = true → forallb isspace post = true →
  forallb isspace pre' = true → forallb isspace post' = true →
  grade (pre ++ output ++ post) (pre' ++ expected ++ post') = grade output expected
  ∧ grade output expected = grade expected output.
Proof.
  intros H1 H2 H3 H4. unfold grade. rewrite !strip_padding by done.
  split; [done|]. repeat case_decide; congruence.
Qed.

Lemma grade_ignores_surrounding_whitespace_witness :
  grade (lit "  " ++ lit "Hello World" ++ [10%N]) ([9%N] ++ lit "Hello World" ++ [])
  = grade (lit "Hello World") (lit "Hello World").
Proof.
  refine (proj1 (grade_ignores_surrounding_whitespace _ _ _ _ _ _ _ _ _ _));
    reflexivity.
Defined.



(** ** The runner, at its edges *)

(** X3. A text that cannot be encoded (a lone surrogate) stops
    [execute_python_code] inside the [with] block: [UnicodeEncodeError]
    reaches the caller, nothing is run, and the temporary script, already
    created and still empty, is left behind. *)
Theorem execute_unencodable_leaves_script code timeout w :
  ¬ encodable (dedent code) →
  (execute_python_code code timeout w).1 = Raise UnicodeEncodeError
  ∧ syslog (execute_python_code code timeout w).2
    = syslog w ++ [SysCreate (temp_path w)]
  ∧ files (execute_python_code code timeout w).2
    = <[temp_path w := []]> (files w).
Proof.
  intros Henc. unfold encodable in Henc. apply not_false_is_true in Henc.
  open_world w. run_execute. by rewrite Henc.
Qed.

Lemma execute_unencodable_leaves_script_witness :
  files (execute_python_code [0xD800%N] default_timeout
           (fresh_world echo_interp)).2 !! "/tmp/tmpq3x.py"%string = Some [].
Proof.
  rewrite (proj2 (proj2 (execute_unencodable_leaves_script [0xD800%N]
                           default_timeout (fresh_world echo_interp)
                           ltac:(discriminate)))).
  apply lookup_insert_eq.
Defined.

(** ** Starting a lab session *)

(** X5. When no lab has the chosen title (an empty lab table, or nothing
    chosen) [start_lab] stops with [IndexError] right after its title:
    nothing is run and nothing is stored. *)
Theorem start_lab_without_lab user inp w :
  filter (λ l, Some (title l) = chosen_lab inp) (labs_csv w) = [] →
  (start_lab user inp w).1 = Raise IndexError
  ∧ sessions_csv (start_lab user inp w).2 = sessions_csv w
  ∧ syslog (start_lab user inp w).2 = syslog w
  ∧ shown (start_lab user inp) w
    = [Title (0x1F4BB%N :: lit " Start a Lab Session")].
Proof.
  intros Hno. split_and!; try apply shown_app;
    unfold start_lab; run_page; by rewrite Hno.
Qed.

Lemma start_lab_without_lab_witness :
  (start_lab student (mkStartLab None (lit "print(1)") true false)
     (fresh_world echo_interp)).1 = Raise IndexError.
Proof.
  exact (proj1 (start_lab_without_lab student
                  (mkStartLab None (lit "print(1)") true false)
                  (fresh_world echo_interp) eq_refl)).
Defined.

(** X6. "Run Code" on a machine without a [python] executable: the
    [FileNotFoundError] of the runner leaves [start_lab], no session is
    stored, and the temporary script is removed all the same. *)
Theorem start_lab_without_interpreter user inp w lab :
  head (filter (λ l, Some (title l) = chosen_lab inp) (labs_csv w)) = Some lab →
  run_clicked inp = true →
  encodable (dedent (code_area inp)) → python_on_path w = false →
  (start_lab user inp w).1 = Raise FileNotFoundError
  ∧ sessions_csv (start_lab user inp w).2 = sessions_csv w
  ∧ (temp_path w ∉ undeletable w →
     files (start_lab user inp w).2 !! temp_path w = None).
Proof.
  intros Hlab Hrun Henc Hpy.
  destruct (execute_python_code_no_python (code_area inp) default_timeout w
              Henc Hpy) as (E1 & _ & E3).
  pose proof (execute_python_code_sessions_csv (code_area inp) default_timeout w)
    as Hs.
  unfold start_lab. run_page. destruct (filter _ _); simplify_eq/=.
  rewrite Hrun, !execute_python_code_show.
  destruct (execute_python_code _ _ w) as [r w1]; simpl in *. subst r.
  page_simpl. split_and!; [done..|].
  intros Hu. rewrite E3, decide_False by done. apply lookup_delete_eq.
Qed.

Lemma start_lab_without_interpreter_witness :
  sessions_csv
    (start_lab student
       (mkStartLab (Some (lit "Basic Python")) (lit "print(1)") true false)
       no_python_world).2 = [].
Proof.
  refine (proj1 (proj2 (start_lab_without_interpreter student _ _ basic_python
                          _ _ _ _))); reflexivity.
Defined.



(** X8. "Save Code Only" runs nothing: no file is created or removed, no
    process is started, and the session that is appended holds the text as
    typed, the clock's time, an empty output and no score. *)
Theorem save_only_runs_nothing user inp w lab :
  head (filter (λ l, Some (title l) = chosen_lab inp) (labs_csv w)) = Some lab →
  run_clicked inp = false → save_clicked inp = true →
  (start_lab user inp w).1 = Ret ()
  ∧ syslog (start_lab user inp w).2 = syslog w
  ∧ files (start_lab user inp w).2 = files w
  ∧ sessions_csv (start_lab user inp w).2 =
      sessions_csv w ++
        [mkSession (next_id (sessions_csv w)) (id user) (lab_id lab)
           (code_area inp) [] None (now w)]
  ∧ shown (start_lab user inp) w
    = [Title (0x1F4BB%N :: lit " Start a Lab Session");
       Subheader (0x1F9EA%N :: lit " " ++ title lab);
       Markdown (description lab);
       Success (lit "Code saved (without grading).")].
Proof.
  intros Hlab Hrun Hsave.
  split_and!; try apply shown_app;
    unfold start_lab; run_page;
    (destruct (filter _ _); simplify_eq/=);
    rewrite Hrun, Hsave; page_simpl; rewrite save_session_run; try done.
  page_simpl. by rewrite <- !(assoc_L (++)).
Qed.

Lemma save_only_runs_nothing_witness :
  syslog (start_lab student
            (mkStartLab (Some (lit "Basic Python")) (lit "x = ") false true)
            (fresh_world echo_interp)).2 = [].
Proof.
  exact (proj1 (proj2 (save_only_runs_nothing student
                         (mkStartLab (Some (lit "Basic Python")) (lit "x = ")
                            false true)
                         (fresh_world echo_interp) basic_python
                         eq_refl eq_refl eq_refl))).
Defined.

(** ** Store and views together *)

(** X9. A session saved for a user is in the table "My Sessions" shows to
    that user in a later run that loads the table as it was saved: the
    row is there with the code, output and score it was saved with. *)
Theorem saved_session_in_history user lab_id code output score w w2 :
  sessions_csv w2
  = sessions_csv (save_session (id user) lab_id code output score w).2 →
  ∃ rows,
    DataFrameSessions rows ∈ shown (my_sessions user) w2
    ∧ mkSession (next_id (sessions_csv w)) (id user) lab_id code output
        (score_cell score) (now w) ∈ rows.
Proof.
  rewrite save_session_run. cbn [snd sessions_csv set_sessions]. intros Hw2.
  set (new := mkSession _ _ _ _ _ _ _) in *.
  assert (new ∈ filter (λ s, user_id s = id user) (sessions_csv w2)) as Hin.
  { apply list_elem_of_filter. split; [done|]. rewrite Hw2.
    apply elem_of_app. right. apply list_elem_of_here. }
  eexists. split.
  - apply my_sessions_table. split; [|done].
    intros E. rewrite E in Hin. by apply elem_of_nil in Hin.
  - by rewrite sort_values_desc_perm.
Qed.

Lemma saved_session_in_history_witness :
  ∃ rows,
    DataFrameSessions rows
      ∈ shown (my_sessions student)
          (save_session (id student) 1 (lit "print(1)") (lit "1")
             (ScoreInt 0) (fresh_world echo_interp)).2
    ∧ mkSession 1 2 1 (lit "print(1)") (lit "1") (Some 0)
        (lit "2024-05-01 10:00:00") ∈ rows.
Proof.
  exact (saved_session_in_history student 1 (lit "print(1)") (lit "1")
           (ScoreInt 0) (fresh_world echo_interp) _ eq_refl).
Defined.


Lemma elem_of_set_score sid new_score df s' :
  s' ∈ set_score sid new_score df →
  session_id s' = sid → score s' = Some new_score.
Proof.
  unfold set_score. intros (s & -> & _)%list_elem_of_fmap.
  by case_decide.
Qed.

(** X10. After a score update that found its session, a later run that
    loads the session table as it was saved shows the new score in every
    row of the grading table with that session identifier, whatever its
    form holds. *)
Theorem updated_score_is_shown inp inp' w w2 :
  update_clicked inp = true →
  sid inp ∈ session_id <$> sessions_csv w →
  sessions_csv w2 = sessions_csv (grading_dashboard inp w).2 →
  ∀ rows row,
    DataFrameMerged rows ∈ shown (grading_dashboard inp') w2 →
    row ∈ rows → v_session_id row = sid inp →
    v_score row = Some (new_score inp).
Proof.
  intros Hclick Hin Hw2 rows row Hrows Hrow Hid.
  assert (sessions_csv w2 = set_score (sid inp) (new_score inp) (sessions_csv w))
    as Hs.
  { rewrite Hw2, (proj1 (proj2 (grading_dashboard_run inp w))), Hclick.
    by rewrite decide_True. }
  destruct (decide (sessions_csv w2 = [])) as [E|Hne].
  { by apply grading_dashboard_no_table in Hrows. }
  apply grading_dashboard_table in Hrows as ->; [|done].
  rewrite sort_values_desc_perm in Hrow. unfold grading_view in Hrow.
  apply list_elem_of_fmap in Hrow as (m & -> & Hm).
  apply elem_of_merge_all in Hm as (Hm & _). rewrite Hs in Hm.
  by apply (elem_of_set_score _ _ _ _ Hm).
Qed.

Lemma updated_score_is_shown_witness :
  ∃ rows,
    DataFrameMerged rows
      ∈ shown (grading_dashboard (mkGrading 1 0 false))
          (grading_dashboard (mkGrading 2 40 true) two_sessions_world).2
    ∧ Forall (λ row, v_session_id row = 2 → v_score row = Some 40) rows.
Proof.
  eexists. split.
  - by apply grading_dashboard_table.
  - apply Forall_forall. intros row Hrow Hid.
    eapply (updated_score_is_shown (mkGrading 2 40 true) (mkGrading 1 0 false)
              two_sessions_world
              (grading_dashboard (mkGrading 2 40 true) two_sessions_world).2
              eq_refl ltac:(compute_done) eq_refl);
      [by apply grading_dashboard_table|done|done].
Defined.

(** X11. "My Sessions" only reads: it returns normally and leaves the
    tables, the files and the system-call log as they were; and every row
    it shows is a stored session of the user it is shown to. *)
Theorem my_sessions_private_read_only user w :
  (my_sessions user w).1 = Ret ()
  ∧ users_csv (my_sessions user w).2 = users_csv w
  ∧ labs_csv (my_sessions user w).2 = labs_csv w
  ∧ sessions_csv (my_sessions user w).2 = sessions_csv w
  ∧ files (my_sessions user w).2 = files w
  ∧ syslog (my_sessions user w).2 = syslog w
  ∧ (∀ rows row,
       DataFrameSessions rows ∈ shown (my_sessions user) w → row ∈ rows →
       row ∈ sessions_csv w ∧ user_id row = id user).
Proof.
  split_and!;
    try (unfold my_sessions; run_page; by destruct (df_empty _)).
  intros rows row [_ ->]%my_sessions_table Hrow.
  rewrite sort_values_desc_perm in Hrow.
  apply list_elem_of_filter in Hrow as [? ?]. done.
Qed.

(** ** Registration *)

Lemma next_of_above ids : Forall (λ i, i < next_of ids) ids.
Proof.
  unfold next_of. destruct (series_max ids) as [m|] eqn:E.
  - apply series_max_spec in E as [_ Hb]. eapply Forall_impl; [done|].
    simpl. lia.
  - by destruct ids.
Qed.

Ltac run_register :=
  unfold register, hash_password, encode, save_users, int; run_page.

Ltac close_page :=
  unfold show, set_users, set_labs; page_simpl; rewrite <- ?(assoc_L (++)).

(** What [register] does to the user table and to the page. *)
Lemma register_run sha inp w :
  let df := users_csv w in
  let known := decide (reg_email inp ∈ email <$> df) in
  let ok := negb (existsb is_surrogate (reg_password inp)) in
  (register sha inp w).1 =
    (if register_clicked inp then
       if known then Ret ()
       else if ok then Ret () else Raise UnicodeEncodeError
     else Ret ())
  ∧ users_csv (register sha inp w).2 =
    (if register_clicked inp then
       if known then df
       else if ok then
              df ++ [mkUser (next_of (id <$> df)) (reg_name inp) (reg_email inp)
                       (sha (reg_password inp)) (lit "student")]
            else df
     else df)
  ∧ shown (register sha inp) w =
      Subheader (0x1F4DD%N :: lit " Register (Student)") ::
      (if register_clicked inp then
         if known then [Warning (lit "Email already registered.")]
         else if ok then [Success (lit "Registration successful! Please login.")]
              else []
       else [])
  ∧ labs_csv (register sha inp w).2 = labs_csv w
  ∧ sessions_csv (register sha inp w).2 = sessions_csv w.
Proof.
  cbv zeta. destruct w as [fs und py run mk sys us ls ss clock scr].
  destruct inp as [nm em pw clicked]. cbn [users_csv reg_email reg_password
    reg_name register_clicked labs_csv sessions_csv].
  destruct clicked.
  2:{ split_and!; try apply shown_app; run_register; by close_page. }
  destruct (decide (em ∈ email <$> us)) as [Hin|Hin] eqn:E.
  { split_and!; try apply shown_app; run_register; rewrite ?E;
    by close_page. }
  destruct (existsb is_surrogate pw) eqn:Epw.
  all: split_and!; try apply shown_app; run_register; rewrite ?E;
    unfold next_of; destruct us as [|u us']; page_simpl;
    rewrite ?Epw; by close_page.
Qed.



(** X13. Registering with a new address and a password that can be encoded
    appends exactly one row: role [student], the name and address as
    typed, the digest of the password in place of the password, and an
    identifier above every identifier in the table (1 on an empty table). The rows already there, the labs and the sessions
    are left as they were. *)
Theorem register_appends_student sha inp w :
  register_clicked inp = true →
  reg_email inp ∉ email <$> users_csv w →
  encodable (reg_password inp) →
  let new_id := next_of (id <$> users_csv w) in
  (register sha inp w).1 = Ret ()
  ∧ users_csv (register sha inp w).2 =
      users_csv w ++ [mkUser new_id (reg_name inp) (reg_email inp)
                        (sha (reg_password inp)) (lit "student")]
  ∧ Forall (λ u, id u < new_id) (users_csv w)
  ∧ (users_csv w = [] → new_id = 1)
  ∧ labs_csv (register sha inp w).2 = labs_csv w
  ∧ sessions_csv (register sha inp w).2 = sessions_csv w
  ∧ shown (register sha inp) w =
      [Subheader (0x1F4DD%N :: lit " Register (Student)");
       Success (lit "Registration successful! Please login.")].
Proof.
  intros Hc Hin Hpw. cbv zeta.
  destruct (register_run sha inp w) as (Hr & Hu & Hs & Hl & Hss).
  unfold encodable in Hpw.
  rewrite Hc, Hpw in Hr, Hu, Hs. destruct (decide _); [done|].
  split_and!; try done.
  - pose proof (next_of_above (id <$> users_csv w)) as H.
    by rewrite Forall_fmap in H.
  - by intros ->.
Qed.

Lemma register_appends_student_witness :
  users_csv (register toy_digest grace_form (fresh_world echo_interp)).2
  = [instructor;
     mkUser 2 (lit "Grace") (lit "grace@example.org") (lit "terc3s")
       (lit "student")].
Proof.
  refine (proj1 (proj2 (register_appends_student toy_digest grace_form
                          (fresh_world echo_interp) eq_refl _ eq_refl))).
  intros H. apply list_elem_of_singleton in H. discriminate H.
Defined.

(** X14. The password is encoded before anything is stored: when it holds
    a lone surrogate, [register] stops with [UnicodeEncodeError] and the
    user table is left as it was. *)
Theorem register_unencodable_password sha inp w :
  register_clicked inp = true →
  reg_email inp ∉ email <$> users_csv w →
  ¬ encodable (reg_password inp) →
  (register sha inp w).1 = Raise UnicodeEncodeError
  ∧ users_csv (register sha inp w).2 = users_csv w.
Proof.
  intros Hc Hin Hpw. unfold encodable in Hpw.
  apply not_false_is_true in Hpw.
  destruct (register_run sha inp w) as (Hr & Hu & _).
  rewrite Hc, Hpw in Hr, Hu. by destruct (decide _).
Qed.

Lemma register_unencodable_password_witness :
  (register toy_digest
     (mkRegister (lit "Grace") (lit "grace@example.org") [0xD800%N] true)
     (fresh_world echo_interp)).1 = Raise UnicodeEncodeError.
Proof.
  refine (proj1 (register_unencodable_password toy_digest
                   (mkRegister (lit "Grace") (lit "grace@example.org")
                      [0xD800%N] true)
                   (fresh_world echo_interp) eq_refl _ _)).
  - intros H. apply list_elem_of_singleton in H. discriminate H.
  - discriminate.
Defined.





(** ** Signing in *)

Lemma shown_st e w : shown (st e) w = [e].
Proof. by apply shown_app. Qed.

Lemma shown_silent {A} (m : M A) w : screen (m w).2 = screen w → shown m w = [].
Proof. intros H. apply shown_app. by rewrite app_nil_r. Qed.

Lemma shown_hash_password sha pw w : shown (hash_password sha pw) w = [].
Proof.
  apply shown_silent. unfold hash_password, encode. run_page.
  by destruct (existsb _ _).
Qed.

Ltac run_app :=
  unfold mbind, App_bind, app_bind, lift, put, set_session_state,
    get_session_state, st_rerun, mret, App_ret;
  rewrite ?shown_st, ?shown_hash_password;
  cbn -[filter lit shown radio strip truthy].

(** What [login] does to the session and to the page; the machine is
    only read. *)
Lemma login_run sha inp s :
  let user := filter (λ u, email u = login_email inp
                           ∧ password_hash u = sha (login_password inp))
                (users_csv (machine s)) in
  let ok := negb (existsb is_surrogate (login_password inp)) in
  (login sha inp s).1 =
    (if login_clicked inp then
       if ok then match user with _ :: _ => Raise RerunException | [] => Ret () end
       else Raise UnicodeEncodeError
     else Ret ())
  ∧ session_state (login sha inp s).2 =
    (if login_clicked inp then
       if ok then match user with u :: _ => Some u | [] => session_state s end
       else session_state s
     else session_state s)
  ∧ rendered (login sha inp s).2 =
      rendered s ++
      Basic (Subheader ([0x1F9D1; 0x200D; 0x1F4BB]%N
               ++ lit " Cloud based Virtual Lababoratory for Online Learning")) ::
      Basic (Subheader (0x1F510%N :: lit " Login")) ::
      (if login_clicked inp then
         if ok then match user with
                    | u :: _ => [Basic (Success (lit "Welcome, " ++ name u ++ lit "!"))]
                    | [] => [Error (lit "Invalid email or password.")]
                    end
         else []
       else []).
Proof.
  cbv zeta. destruct s as [w auth pg].
  destruct w as [fs und py run mk sys us ls ss clock scr].
  destruct inp as [em pw clicked]. cbn [login_email login_password login_clicked
    machine session_state rendered users_csv].
  unfold login. run_app.
  destruct clicked.
  2:{ run_app. by rewrite <- !(assoc_L (++)). }
  run_app. rewrite ?(shown_silent load_users) by done.
  unfold hash_password, encode, mbind, M_bind, bind, mret, M_ret, ret, raise.
  destruct (existsb is_surrogate pw); run_app.
  { by rewrite app_nil_r, <- !(assoc_L (++)). }
  destruct (filter _ us) as [|u rest]; run_app;
    by rewrite ?shown_st, ?app_nil_r, <- !(assoc_L (++)).
Qed.

(** ** What the pages leave alone *)

Lemma keeps_ret {A} Q (a : A) : keeps Q (mret a).
Proof. by intros s. Qed.

Lemma keeps_bind {A B} Q (m : App A) (k : A → App B) :
  keeps Q m → (∀ a, keeps Q (k a)) → keeps Q (m ≫= k).
Proof.
  intros Hm Hk s Hs. unfold mbind, App_bind, app_bind.
  specialize (Hm s Hs). destruct (m s) as [[a|e] s']; simpl in *; [|done].
  by apply Hk.
Qed.

Lemma keeps_lift {A} Q (m : M A) : preserves Q m → keeps Q (lift m).
Proof. intros Hm s Hs. by apply Hm. Qed.

Lemma keeps_put Q e : keeps Q (put e).
Proof. by intros s. Qed.

Lemma keeps_set_session_state Q u : keeps Q (set_session_state u).
Proof. by intros s. Qed.

Lemma keeps_st_rerun {A} Q : keeps Q (@st_rerun A).
Proof. by intros s. Qed.

Lemma keeps_if {A} Q (b : bool) (m1 m2 : App A) :
  keeps Q m1 → keeps Q m2 → keeps Q (if b then m1 else m2).
Proof. by destruct b. Qed.

(** Pages that only print keep every property of the machine that does
    not depend on the page. *)
Section printing.
Context (Q : world → Prop).
Context (Q_show : ∀ e w, Q w → Q (show e w)).

Lemma frame_st e : preserves Q (st e).
Proof using Q_show. intros w Hw. by apply Q_show. Qed.

Lemma frame_hash_password sha pw : preserves Q (hash_password sha pw).
Proof.
  unfold hash_password, encode. destruct (existsb _ _); by intros w.
Qed.

Lemma frame_about : preserves Q about.
Proof using Q_show.
  unfold about. apply preserves_bind; [|intros ?]; apply frame_st.
Qed.

Lemma frame_my_sessions user : preserves Q (my_sessions user).
Proof using Q_show.
  unfold my_sessions.
  apply preserves_bind; [apply frame_st|intros _].
  apply preserves_bind; [by intros ?|intros df].
  apply preserves_if; apply frame_st.
Qed.

Lemma keeps_login sha inp : keeps Q (login sha inp).
Proof using Q_show.
  unfold login.
  repeat first
    [ apply keeps_bind; [|intros ?]
    | apply keeps_lift, frame_st
    | apply keeps_lift, frame_hash_password
    | apply keeps_if
    | apply keeps_ret
    | apply keeps_put | apply keeps_set_session_state | apply keeps_st_rerun
    | by apply keeps_lift; intros ?
    | destruct (filter _ _) ].
Qed.

(** The dashboard writes the lab table for nobody but an instructor. *)
Lemma keeps_dashboard_student user inp :
  role user ≠ lit "instructor" → keeps Q (dashboard user inp).
Proof using Q_show.
  intros Hrole. unfold dashboard.
  repeat first
    [ apply keeps_bind; [|intros ?]
    | apply keeps_lift, frame_st
    | apply keeps_ret
    | apply keeps_put
    | by apply keeps_lift; intros ?
    | case_decide; [done|] ].
Qed.

Context (Q_files : ∀ f w, Q w → Q (set_files f w)).
Context (Q_log : ∀ c w, Q w → Q (log_sys c w)).

Lemma frame_start_lab user inp :
  (∀ lab_id code output score,
     preserves Q (save_session (id user) lab_id code output score)) →
  preserves Q (start_lab user inp).
Proof using Q_show Q_files Q_log.
  intros Q_save. unfold start_lab. cbv zeta.
  repeat first
    [ apply Q_save
    | apply frame_execute_python_code; [done|done]
    | apply frame_st
    | apply preserves_bind; [|intros ?]
    | apply preserves_if
    | apply preserves_ret
    | apply preserves_raise
    | by intros ?
    | destruct (filter _ _) ].
Qed.


(** One run of the application keeps [Q] when the four pages that write
    keep it. *)
Lemma main_keeps sha inp s :
  (session_state s = None → preserves Q (register sha (in_register inp))) →
  (∀ user, session_state s = Some user →
           preserves Q (start_lab user (in_start_lab inp))) →
  (∀ user, session_state s = Some user → role user = lit "instructor" →
           preserves Q (grading_dashboard (in_grading inp))) →
  (∀ user, session_state s = Some user →
           keeps Q (dashboard user (in_dashboard inp))) →
  Q (machine s) → Q (machine (main sha inp s).2).
Proof using Q_show.
  intros Hreg Hlab Hgrade Hdash Hs. destruct s as [w auth pg].
  unfold main. unfold mbind at 1 2.
  cbv beta iota delta [App_bind app_bind put get_session_state
                         session_state machine rendered] in *.
  match goal with
  | |- Q (match (?m ?s).2 with mkApp w' _ _ => w' end) =>
      cut (keeps Q m); [intros Hk; by apply (Hk s)|]
  end.
  destruct auth as [user|].
  - apply keeps_bind; [apply keeps_put|intros _].
    match goal with
    | |- context [decide (?m = MenuDashboard)] => generalize m; intros menu
    end.
    destruct (decide (menu = MenuDashboard)); [by apply Hdash|].
    destruct (decide (menu = MenuStartLab)); [by apply keeps_lift, Hlab|].
    destruct (decide (menu = MenuMySessions));
      [apply keeps_lift, frame_my_sessions|].
    destruct (decide (menu = MenuGradingDashboard ∧ _)) as [[_ Hrole]|];
      [by apply keeps_lift, (Hgrade user)|].
    destruct (decide (menu = MenuAbout)); [apply keeps_lift, frame_about|].
    destruct (decide (menu = MenuLogout)); [|apply keeps_ret].
    destruct (logout_clicked inp); [|apply keeps_ret].
    apply keeps_bind; [apply keeps_set_session_state|intros _].
    apply keeps_bind; [apply keeps_lift, frame_st|intros _].
    apply keeps_st_rerun.
  - match goal with
    | |- context [decide (?m = MenuLogin)] => generalize m; intros menu
    end.
    destruct (decide (menu = MenuLogin)); [apply keeps_login|].
    destruct (decide (menu = MenuRegister)); [by apply keeps_lift, Hreg|].
    apply keeps_lift, frame_about.
Qed.

Lemma frame_register sha inp :
  (∀ df w, Q w → Q (set_users df w)) → preserves Q (register sha inp).
Proof using Q_show.
  intros Q_users. unfold register.
  apply preserves_bind; [apply frame_st|intros _].
  apply preserves_if; [|apply preserves_ret].
  apply preserves_bind; [by intros ?|intros df].
  case_decide; [apply frame_st|].
  apply preserves_bind; [|intros new_id].
  { apply preserves_if; [|apply preserves_ret].
    apply preserves_bind; [|intros ?; apply preserves_ret].
    unfold int. destruct (series_max _); by intros ?. }
  apply preserves_bind; [apply frame_hash_password|intros hashed].
  apply preserves_bind; [|intros _; apply frame_st].
  intros w Hw. by apply Q_users.
Qed.

Lemma keeps_dashboard user inp :
  (∀ df w, Q w → Q (set_labs df w)) → keeps Q (dashboard user inp).
Proof using Q_show.
  intros Q_labs. unfold dashboard.
  apply keeps_bind; [apply keeps_lift, frame_st|intros _].
  apply keeps_bind; [by apply keeps_lift; intros ?|intros labs_df].
  apply keeps_bind; [apply keeps_put|intros _].
  case_decide; [|apply keeps_ret].
  apply keeps_bind; [apply keeps_lift, frame_st|intros _].
  apply keeps_if; [|apply keeps_ret].
  apply keeps_if; [|apply keeps_lift, frame_st].
  apply keeps_bind; [|intros new_id].
  { apply keeps_lift, preserves_if; [|apply preserves_ret].
    apply preserves_bind; [|intros ?; apply preserves_ret].
    unfold int. destruct (series_max _); by intros ?. }
  apply keeps_bind; [|intros _].
  { apply keeps_lift. intros w Hw. by apply Q_labs. }
  apply keeps_bind; [apply keeps_lift, frame_st|intros _].
  apply keeps_st_rerun.
Qed.
End printing.

(** ** The lab catalogue *)

(** What [dashboard] does to the lab table, the session and the page. *)
Lemma dashboard_run user inp s :
  let labs := labs_csv (machine s) in
  let instr := bool_decide (role user = lit "instructor") in
  let titled := truthy (strip (new_title inp)) in
  let creates := instr && create_clicked inp && titled in
  (dashboard user inp s).1 = (if creates then Raise RerunException else Ret ())
  ∧ labs_csv (machine (dashboard user inp s).2) =
    (if creates
     then labs ++ [mkLab (next_of (lab_id <$> labs)) (new_title inp)
                     (new_desc inp) (new_expected_output inp)]
     else labs)
  ∧ session_state (dashboard user inp s).2 = session_state s
  ∧ rendered (dashboard user inp s).2 =
      rendered s ++
      Basic (Title (0x1F4DA%N :: lit " Dashboard")) :: Table labs ::
      (if instr then
         Basic (Subheader (0x2795%N :: lit " Create New Lab")) ::
         (if create_clicked inp then
            if titled then [Basic (Success (lit "New lab added successfully!"))]
            else [Basic (Warning (lit "Please enter a lab title."))]
          else [])
       else []).
Proof.
  cbv zeta. destruct s as [w auth pg].
  destruct w as [fs und py run mk sys us ls ss clock scr].
  destruct inp as [ttl desc expected clicked].
  cbn [new_title new_desc new_expected_output create_clicked machine
       session_state rendered labs_csv].
  unfold dashboard.
  destruct (decide (role user = lit "instructor")) as [Hr|Hr];
    [rewrite !(bool_decide_eq_true_2 _ Hr)
    |rewrite !(bool_decide_eq_false_2 _ Hr)];
    run_app; rewrite ?(shown_silent load_labs) by done.
  2:{ by rewrite app_nil_r, <- !(assoc_L (++)). }
  destruct clicked; run_app.
  2:{ by rewrite app_nil_r, <- !(assoc_L (++)). }
  destruct (truthy (strip ttl)); run_app.
  2:{ by rewrite app_nil_r, <- !(assoc_L (++)). }
  unfold next_of, int.
  destruct ls as [|l ls'];
    unfold mbind, M_bind, bind, mret, M_ret, ret;
    cbn -[filter lit shown radio strip truthy show set_labs save_labs st];
    rewrite ?shown_st; repeat (rewrite shown_silent by done);
    by rewrite ?app_nil_r, <- ?(assoc_L (++)).
Qed.

(** The machine [login] leaves behind differs from the one it found by the
    page only. *)
Lemma login_machine sha inp s :
  users_csv (machine (login sha inp s).2) = users_csv (machine s)
  ∧ labs_csv (machine (login sha inp s).2) = labs_csv (machine s)
  ∧ sessions_csv (machine (login sha inp s).2) = sessions_csv (machine s)
  ∧ files (machine (login sha inp s).2) = files (machine s)
  ∧ syslog (machine (login sha inp s).2) = syslog (machine s).
Proof.
  apply (keeps_login
           (λ w, users_csv w = users_csv (machine s)
                 ∧ labs_csv w = labs_csv (machine s)
                 ∧ sessions_csv w = sessions_csv (machine s)
                 ∧ files w = files (machine s)
                 ∧ syslog w = syslog (machine s))); done.
Qed.



(** X17. "Login" when no stored row has both the address and the digest of
    the password typed: the page shows the error, nobody is signed in (the
    session is left as it was), and nothing is written. *)
Theorem login_rejects_wrong_credentials sha inp s :
  login_clicked inp = true →
  encodable (login_password inp) →
  (∀ u, u ∈ users_csv (machine s) → email u = login_email inp →
        password_hash u ≠ sha (login_password inp)) →
  (login sha inp s).1 = Ret ()
  ∧ session_state (login sha inp s).2 = session_state s
  ∧ last (rendered (login sha inp s).2)
    = Some (Error (lit "Invalid email or password."))
  ∧ users_csv (machine (login sha inp s).2) = users_csv (machine s).
Proof.
  intros Hc Hpw Hno. unfold encodable in Hpw.
  destruct (login_run sha inp s) as (Hr & Hs & Hp).
  assert (filter (λ u, email u = login_email inp
                       ∧ password_hash u = sha (login_password inp))
            (users_csv (machine s)) = []) as Hnil.
  { destruct (filter _ _) as [|u rest] eqn:E; [done|]. exfalso.
    assert (u ∈ u :: rest) as Hin by apply list_elem_of_here.
    rewrite <- E in Hin. apply list_elem_of_filter in Hin as [[He Hh] Hin].
    by apply (Hno u). }
  rewrite Hc, Hpw, Hnil in Hr, Hs, Hp. simpl in Hr, Hs, Hp.
  split_and!; [done|done| |apply login_machine].
  by rewrite Hp, last_app.
Qed.

Lemma login_rejects_wrong_credentials_witness :
  session_state
    (login toy_digest (mkLogin (lit "grace@example.org") (lit "guess") true)
       (visitor campus)).2 = None.
Proof.
  refine (proj1 (proj2 (login_rejects_wrong_credentials toy_digest
                          (mkLogin (lit "grace@example.org") (lit "guess") true)
                          (visitor campus) eq_refl eq_refl _))).
  intros u Hu He.
  repeat (apply elem_of_cons in Hu as [->|Hu]; [by vm_compute|]).
  by apply elem_of_nil in Hu.
Defined.

(** X18. Registration and sign-in fit together: in a later run that
    loads the user table as a successful registration saved it, "Login"
    with the same address and password signs in the row that was stored,
    a student. *)
Theorem register_then_login sha inp w s2 :
  register_clicked inp = true →
  reg_email inp ∉ email <$> users_csv w →
  encodable (reg_password inp) →
  users_csv (machine s2) = users_csv (register sha inp w).2 →
  let s' := login sha (mkLogin (reg_email inp) (reg_password inp) true) s2 in
  s'.1 = Raise RerunException
  ∧ ∃ u, session_state s'.2 = Some u
         ∧ last (users_csv (machine s2)) = Some u
         ∧ name u = reg_name inp ∧ email u = reg_email inp
         ∧ role u = lit "student".
Proof.
  intros Hc Hin Hpw Hs2. cbv zeta.
  destruct (register_run sha inp w) as (_ & Hu & _).
  unfold encodable in Hpw. rewrite Hc, Hpw in Hu.
  rewrite decide_False in Hu by done. simpl in Hu. rewrite Hu in Hs2.
  set (new := mkUser _ _ _ _ _) in Hs2.
  set (linp := mkLogin _ _ _).
  destruct (login_run sha linp s2) as (Hr & Hs & _).
  cbn [login_clicked login_password login_email linp] in Hr, Hs.
  rewrite Hpw, Hs2 in Hr, Hs. simpl negb in Hr, Hs. cbv iota in Hr, Hs.
  assert (filter (λ u, email u = reg_email inp
                       ∧ password_hash u = sha (reg_password inp))
            (users_csv w ++ [new]) = [new]) as Hf.
  { rewrite filter_app.
    assert (filter (λ u, email u = reg_email inp
                         ∧ password_hash u = sha (reg_password inp))
              (users_csv w) = []) as ->.
    { destruct (filter _ (users_csv w)) as [|u rest] eqn:E; [done|]. exfalso.
      assert (u ∈ u :: rest) as Hu' by apply list_elem_of_here.
      rewrite <- E in Hu'. apply list_elem_of_filter in Hu' as [[He _] Hu'].
      apply Hin. rewrite <- He. apply list_elem_of_fmap. by exists u. }
    rewrite filter_cons_True; [done|]. by subst new. }
  rewrite Hf in Hr, Hs. split; [done|].
  exists new. rewrite Hs2, last_snoc. by subst new.
Qed.

Lemma register_then_login_witness :
  (login toy_digest (mkLogin (lit "grace@example.org") (lit "s3cret") true)
     (visitor (register toy_digest grace_form (fresh_world echo_interp)).2)).1
  = Raise RerunException.
Proof.
  refine (proj1 (register_then_login toy_digest grace_form
                   (fresh_world echo_interp)
                   (visitor (register toy_digest grace_form
                               (fresh_world echo_interp)).2)
                   eq_refl _ eq_refl eq_refl)).
  intros H. apply list_elem_of_singleton in H. discriminate H.
Defined.

(** ** Creating labs *)

Lemma truthy_strip s : truthy (strip s) = negb (forallb isspace s).
Proof.
  destruct (forallb isspace s) eqn:E; simpl.
  - apply lstrip_blank_iff in E. unfold strip. by rewrite E.
  - destruct (strip s) as [|c r] eqn:Es; [exfalso|done].
    unfold strip, rstrip in Es.
    apply (f_equal reverse) in Es. rewrite reverse_involutive in Es.
    change (reverse []) with (@nil N) in Es.
    apply lstrip_blank_iff in Es. rewrite forallb_isspace_reverse in Es.
    apply lstrip_blank_iff in Es. rewrite lstrip_idemp in Es.
    apply lstrip_blank_iff in Es. congruence.
Qed.

Lemma dashboard_machine user inp s :
  users_csv (machine (dashboard user inp s).2) = users_csv (machine s)
  ∧ sessions_csv (machine (dashboard user inp s).2) = sessions_csv (machine s)
  ∧ files (machine (dashboard user inp s).2) = files (machine s)
  ∧ syslog (machine (dashboard user inp s).2) = syslog (machine s).
Proof.
  apply (keeps_dashboard
           (λ w, users_csv w = users_csv (machine s)
                 ∧ sessions_csv w = sessions_csv (machine s)
                 ∧ files w = files (machine s)
                 ∧ syslog w = syslog (machine s))); done.
Qed.

(** X19. For anyone but an instructor the dashboard is a read-only page:
    it shows the lab table and nothing else, whatever the widget values,
    and leaves the three tables as they were. *)
Theorem dashboard_read_only_for_students user inp s :
  role user ≠ lit "instructor" →
  (dashboard user inp s).1 = Ret ()
  ∧ rendered (dashboard user inp s).2 =
      rendered s ++ [Basic (Title (0x1F4DA%N :: lit " Dashboard"));
                 Table (labs_csv (machine s))]
  ∧ labs_csv (machine (dashboard user inp s).2) = labs_csv (machine s)
  ∧ users_csv (machine (dashboard user inp s).2) = users_csv (machine s)
  ∧ sessions_csv (machine (dashboard user inp s).2) = sessions_csv (machine s).
Proof.
  intros Hrole. destruct (dashboard_run user inp s) as (Hr & Hl & _ & Hp).
  rewrite (bool_decide_eq_false_2 _ Hrole) in Hr, Hl, Hp.
  destruct (dashboard_machine user inp s) as (Hu & Hs & _).
  done.
Qed.

Lemma dashboard_read_only_for_students_witness :
  labs_csv (machine (dashboard grace
                       (mkDashboard (lit "Loops") [] (lit "0 1 2") true)
                       (signed_in grace campus)).2) = [basic_python].
Proof.
  refine (proj1 (proj2 (proj2 (dashboard_read_only_for_students grace
            (mkDashboard (lit "Loops") [] (lit "0 1 2") true)
            (signed_in grace campus) _)))).
  discriminate.
Defined.

(** X20. "Create Lab" with a title that is empty or all whitespace adds no
    lab: the instructor gets the warning and the lab table is left as it
    was. *)
Theorem dashboard_rejects_blank_title user inp s :
  role user = lit "instructor" →
  create_clicked inp = true →
  forallb isspace (new_title inp) = true →
  (dashboard user inp s).1 = Ret ()
  ∧ labs_csv (machine (dashboard user inp s).2) = labs_csv (machine s)
  ∧ last (rendered (dashboard user inp s).2)
    = Some (Basic (Warning (lit "Please enter a lab title."))).
Proof.
  intros Hrole Hc Hblank.
  destruct (dashboard_run user inp s) as (Hr & Hl & _ & Hp).
  rewrite (bool_decide_eq_true_2 _ Hrole), Hc, truthy_strip, Hblank
    in Hr, Hl, Hp.
  split_and!; [done..|]. by rewrite Hp, last_app.
Qed.

Lemma dashboard_rejects_blank_title_witness :
  labs_csv (machine (dashboard instructor
                       (mkDashboard (lit "   ") (lit "d") (lit "x") true)
                       (signed_in instructor campus)).2) = [basic_python].
Proof.
  exact (proj1 (proj2 (dashboard_rejects_blank_title instructor
           (mkDashboard (lit "   ") (lit "d") (lit "x") true)
           (signed_in instructor campus) eq_refl eq_refl eq_refl))).
Defined.

(** X21. "Create Lab" by an instructor with a title that has a visible
    character appends exactly one lab: the title, description and expected
    output as typed (the title is not trimmed), under an identifier above
    every identifier in the table. The users and the sessions are left as
    they were and the script is rerun. *)
Theorem dashboard_creates_lab user inp s :
  role user = lit "instructor" →
  create_clicked inp = true →
  forallb isspace (new_title inp) = false →
  let labs := labs_csv (machine s) in
  let new_id := next_of (lab_id <$> labs) in
  (dashboard user inp s).1 = Raise RerunException
  ∧ labs_csv (machine (dashboard user inp s).2) =
      labs ++ [mkLab new_id (new_title inp) (new_desc inp)
                 (new_expected_output inp)]
  ∧ Forall (λ l, lab_id l < new_id) labs
  ∧ users_csv (machine (dashboard user inp s).2) = users_csv (machine s)
  ∧ sessions_csv (machine (dashboard user inp s).2) = sessions_csv (machine s)
  ∧ last (rendered (dashboard user inp s).2)
    = Some (Basic (Success (lit "New lab added successfully!"))).
Proof.
  intros Hrole Hc Htitle. cbv zeta.
  destruct (dashboard_run user inp s) as (Hr & Hl & _ & Hp).
  rewrite (bool_decide_eq_true_2 _ Hrole), Hc, truthy_strip, Htitle
    in Hr, Hl, Hp.
  destruct (dashboard_machine user inp s) as (Hu & Hs & _).
  split_and!; [done..| |done|done|by rewrite Hp, last_app].
  pose proof (next_of_above (lab_id <$> labs_csv (machine s))) as H.
  by rewrite Forall_fmap in H.
Qed.

Lemma dashboard_creates_lab_witness :
  labs_csv (machine (dashboard instructor
                       (mkDashboard (lit " Loops") (lit "for") (lit "0 1 2") true)
                       (signed_in instructor campus)).2)
  = [basic_python; mkLab 2 (lit " Loops") (lit "for") (lit "0 1 2")].
Proof.
  exact (proj1 (proj2 (dashboard_creates_lab instructor
           (mkDashboard (lit " Loops") (lit "for") (lit "0 1 2") true)
           (signed_in instructor campus) eq_refl eq_refl eq_refl))).
Defined.

(** X22. A lab is started by its title, and titles are not checked when a
    lab is created: in a later run that loads the lab table as "Create
    Lab" saved it, a session saved under the new title is filed under the
    new lab only if no older lab carries the same title; otherwise it is
    filed under the first lab that does. *)
Theorem created_lab_started_by_title instr dinp s user inp w2 :
  role instr = lit "instructor" →
  create_clicked dinp = true →
  forallb isspace (new_title dinp) = false →
  labs_csv w2 = labs_csv (machine (dashboard instr dinp s).2) →
  chosen_lab inp = Some (new_title dinp) →
  run_clicked inp = false → save_clicked inp = true →
  let labs := labs_csv (machine s) in
  ∃ r, sessions_csv (start_lab user inp w2).2 = sessions_csv w2 ++ [r]
       ∧ session_lab_id r =
           match head (filter (λ l, title l = new_title dinp) labs) with
           | Some old => lab_id old
           | None => next_of (lab_id <$> labs)
           end.
Proof.
  intros Hrole Hc Htitle Hw2 Hchosen Hrun Hsave. cbv zeta.
  destruct (dashboard_run instr dinp s) as (_ & Hl & _).
  rewrite (bool_decide_eq_true_2 _ Hrole), Hc, truthy_strip, Htitle in Hl.
  simpl in Hl. rewrite Hl in Hw2.
  set (new := mkLab _ _ _ _) in Hw2.
  set (found := filter (λ l, title l = new_title dinp) (labs_csv (machine s))).
  assert (filter (λ l, Some (title l) = chosen_lab inp) (labs_csv w2)
          = found ++ [new]) as Hf.
  { rewrite Hw2, Hchosen, filter_app, (filter_cons_True _ new) by done.
    f_equal. apply list_filter_iff. intros l. split; congruence. }
  destruct (start_lab_save_only user inp w2
              (default new (head found))) as (_ & _ & Hss); [|done|done|].
  { rewrite Hf. by destruct found. }
  eexists. split; [by rewrite Hss|].
  cbn [session_lab_id]. by destruct (head found).
Qed.

Lemma created_lab_started_by_title_witness :
  ∃ r, sessions_csv
         (start_lab grace
            (mkStartLab (Some (lit "Basic Python")) (lit "print(2)") false true)
            (machine (dashboard instructor
                        (mkDashboard (lit "Basic Python") [] (lit "2") true)
                        (signed_in instructor campus)).2)).2 = [r]
       ∧ session_lab_id r = 1.
Proof.
  exact (created_lab_started_by_title instructor
           (mkDashboard (lit "Basic Python") [] (lit "2") true)
           (signed_in instructor campus) grace
           (mkStartLab (Some (lit "Basic Python")) (lit "print(2)") false true)
           _ eq_refl eq_refl eq_refl eq_refl eq_refl eq_refl eq_refl).
Defined.

(** ** One run of the application *)

(** X23. Without a signed-in user [main] offers "Login", "Register" and
    "About" only: whatever is picked and typed, no code is run (the files
    and the system-call log stay as they were) and the labs and the
    sessions are left as they were. *)
Theorem main_visitor_writes_accounts_only sha inp s :
  session_state s = None →
  labs_csv (machine (main sha inp s).2) = labs_csv (machine s)
  ∧ sessions_csv (machine (main sha inp s).2) = sessions_csv (machine s)
  ∧ files (machine (main sha inp s).2) = files (machine s)
  ∧ syslog (machine (main sha inp s).2) = syslog (machine s).
Proof.
  intros Hs.
  apply (main_keeps
           (λ w, labs_csv w = labs_csv (machine s)
                 ∧ sessions_csv w = sessions_csv (machine s)
                 ∧ files w = files (machine s)
                 ∧ syslog w = syslog (machine s))); try done.
  - intros _. by apply frame_register.
  - intros user Hu. by rewrite Hs in Hu.
  - intros user Hu. by rewrite Hs in Hu.
  - intros user Hu. by rewrite Hs in Hu.
Qed.

Lemma main_visitor_writes_accounts_only_witness :
  sessions_csv
    (machine (main toy_digest
                (mkMain MenuStartLab (mkLogin [] [] true) grace_form
                   (mkDashboard (lit "Loops") [] [] true)
                   (mkStartLab (Some (lit "Basic Python")) (lit "print(1)")
                      true true)
                   (mkGrading 1 100 true) true)
                (visitor campus)).2) = [].
Proof.
  exact (proj1 (proj2 (main_visitor_writes_accounts_only toy_digest
                         (mkMain MenuStartLab (mkLogin [] [] true) grace_form
                            (mkDashboard (lit "Loops") [] [] true)
                            (mkStartLab (Some (lit "Basic Python"))
                               (lit "print(1)") true true)
                            (mkGrading 1 100 true) true)
                         (visitor campus) eq_refl))).
Defined.

(** X24. No statement that [main] runs for a signed-in user who is not an
    instructor writes the users or the labs, or rewrites or removes a
    stored session: after the run the session table still starts with the
    rows it had, scores included. The grading page is not reachable for
    them, whatever the menu returns. (A program submitted with "Run Code"
    is a process of its own, which acts on [files] only.) *)
Theorem main_student_cannot_alter user sha inp s :
  session_state s = Some user →
  role user ≠ lit "instructor" →
  users_csv (machine (main sha inp s).2) = users_csv (machine s)
  ∧ labs_csv (machine (main sha inp s).2) = labs_csv (machine s)
  ∧ sessions_csv (machine s) `prefix_of` sessions_csv (machine (main sha inp s).2).
Proof.
  intros Hs Hrole.
  apply (main_keeps
           (λ w, users_csv w = users_csv (machine s)
                 ∧ labs_csv w = labs_csv (machine s)
                 ∧ sessions_csv (machine s) `prefix_of` sessions_csv w));
    try done.
  - intros Hn. by rewrite Hs in Hn.
  - intros u Hu. apply frame_start_lab; try done.
    intros lab_id code output score w (? & ? & ?).
    rewrite save_session_run. split_and!; [done..|]. simpl.
    by apply prefix_app_r.
  - intros u Hu Hr. rewrite Hs in Hu. by simplify_eq.
  - intros u Hu. rewrite Hs in Hu. simplify_eq.
    by apply keeps_dashboard_student.
Qed.

Lemma main_student_cannot_alter_witness :
  labs_csv
    (machine (main toy_digest
                (mkMain MenuGradingDashboard (mkLogin [] [] true) grace_form
                   (mkDashboard (lit "Loops") [] [] true)
                   (mkStartLab (Some (lit "Basic Python")) (lit "print(1)")
                      true true)
                   (mkGrading 1 100 true) true)
                (signed_in grace campus)).2) = [basic_python].
Proof.
  refine (proj1 (proj2 (main_student_cannot_alter grace toy_digest
                          (mkMain MenuGradingDashboard (mkLogin [] [] true)
                             grace_form
                             (mkDashboard (lit "Loops") [] [] true)
                             (mkStartLab (Some (lit "Basic Python"))
                                (lit "print(1)") true true)
                             (mkGrading 1 100 true) true)
                          (signed_in grace campus) eq_refl _))).
  discriminate.
Defined.




Ltac run_main_head :=
  unfold main; unfold mbind at 1 2;
  cbv beta iota delta [App_bind app_bind put get_session_state];
  cbn [session_state machine rendered].

(** X26. The only way into a session is a matching account: when a run
    of [main] that started with nobody signed in ends with user [u] in
    the session, "Login" was clicked and [u] is a stored row with the
    address typed and with the digest of the password typed. *)
Theorem main_sign_in_needs_matching_account sha inp s u :
  session_state s = None →
  session_state (main sha inp s).2 = Some u →
  login_clicked (in_login inp) = true
  ∧ u ∈ users_csv (machine s)
  ∧ email u = login_email (in_login inp)
  ∧ password_hash u = sha (login_password (in_login inp)).
Proof.
  destruct s as [w auth pg]. simpl. intros -> Hin. revert Hin.
  run_main_head.
  match goal with
  | |- context [decide (?m = MenuLogin)] => generalize m; intros menu
  end.
  destruct (decide (menu = MenuLogin)).
  - match goal with
    | |- context [login sha ?i ?s] =>
        destruct (login_run sha i s) as (_ & -> & _)
    end.
    simpl. destruct (login_clicked _); [|done].
    destruct (negb _); [|done].
    destruct (filter _ _) as [|u0 rest] eqn:E; [done|].
    intros [= ->].
    assert (u ∈ u :: rest) as Hu by apply list_elem_of_here.
    rewrite <- E in Hu. by apply list_elem_of_filter in Hu as [[? ?] ?].
  - by destruct (decide (menu = MenuRegister)).
Qed.

Lemma main_sign_in_needs_matching_account_witness :
  grace ∈ users_csv campus.
Proof.
  refine (proj1 (proj2 (main_sign_in_needs_matching_account toy_digest
            (mkMain MenuLogin
               (mkLogin (lit "grace@example.org") (lit "s3cret") true)
               grace_form (mkDashboard [] [] [] false)
               (mkStartLab None [] false false) (mkGrading 1 0 false) false)
            (visitor campus) grace eq_refl _))).
  vm_compute. reflexivity.
Defined.

Lemma radio_logout picked :
  (radio [MenuDashboard; MenuStartLab; MenuGradingDashboard; MenuLogout;
          MenuAbout] picked = MenuLogout ↔ picked = MenuLogout)
  ∧ (radio [MenuDashboard; MenuStartLab; MenuMySessions; MenuLogout;
            MenuAbout] picked = MenuLogout ↔ picked = MenuLogout).
Proof. by destruct picked; vm_compute. Qed.

(** X27. A signed-in user stays signed in, as the same user, through
    every page: the session is emptied by a click on "Logout" on the
    "Logout" page and by nothing else. *)
Theorem main_session_kept_until_logout user sha inp s :
  session_state s = Some user →
  session_state (main sha inp s).2 =
    if bool_decide (menu_picked inp = MenuLogout) && logout_clicked inp
    then None else Some user.
Proof.
  destruct s as [w auth pg]. simpl. intros ->.
  run_main_head. unfold mbind at 1.
  cbv beta iota delta [App_bind app_bind put]. cbn [session_state machine rendered].
  match goal with
  | |- context [decide (?m = MenuDashboard)] => set (menu := m)
  end.
  assert (menu = MenuLogout ↔ menu_picked inp = MenuLogout) as Hmenu.
  { subst menu. destruct (decide (role user = _)); apply radio_logout. }
  clearbody menu.
  destruct (decide (menu = MenuDashboard)) as [->|].
  { rewrite bool_decide_eq_false_2 by (by rewrite <- Hmenu).
    match goal with
    | |- context [dashboard ?u ?i ?s] =>
        by destruct (dashboard_run u i s) as (_ & _ & -> & _)
    end. }
  destruct (decide (menu = MenuStartLab)) as [->|].
  { by rewrite bool_decide_eq_false_2 by (by rewrite <- Hmenu). }
  destruct (decide (menu = MenuMySessions)) as [->|].
  { by rewrite bool_decide_eq_false_2 by (by rewrite <- Hmenu). }
  destruct (decide (menu = MenuGradingDashboard ∧ _)) as [[-> _]|].
  { by rewrite bool_decide_eq_false_2 by (by rewrite <- Hmenu). }
  destruct (decide (menu = MenuAbout)) as [->|].
  { by rewrite bool_decide_eq_false_2 by (by rewrite <- Hmenu). }
  destruct (decide (menu = MenuLogout)) as [Hl|Hl].
  - rewrite bool_decide_eq_true_2 by (by apply Hmenu).
    by destruct (logout_clicked inp).
  - by rewrite bool_decide_eq_false_2 by (by rewrite <- Hmenu).
Qed.

Lemma main_session_kept_until_logout_witness :
  session_state
    (main toy_digest
       (mkMain MenuLogout (mkLogin [] [] false) grace_form
          (mkDashboard [] [] [] false) (mkStartLab None [] false false)
          (mkGrading 1 0 false) true)
       (signed_in grace campus)).2 = None.
Proof.
  exact (main_session_kept_until_logout grace toy_digest
           (mkMain MenuLogout (mkLogin [] [] false) grace_form
              (mkDashboard [] [] [] false) (mkStartLab None [] false false)
              (mkGrading 1 0 false) true)
           (signed_in grace campus) eq_refl).
Defined.
